(** * MPU-9250 movement-sensor driver (package mpu9250): a shallow embedding

    The Go driver talks to the chip over an I2C bus, keeps a snapshot of
    the last decoded sample, and exposes it through the movement-sensor
    accessors.  This file embeds the register-level driver, the unit
    conversion, one iteration of the polling goroutine, and the accessor
    methods, and proves the properties the specification states about
    them.

    Conventions.
    - [float64] values are IEEE-754 binary64 numbers, represented with the
      [spec_float] type of the standard library and its correctly rounded
      operations (precision 53, exponent bound 1024).
    - a Go [byte] is a [Byte.byte]; a Go [error] that may be [nil] is an
      [option error].
    - state that the Go code mutates (package variables, the logger, the
      I2C bus, the receiver struct) is passed explicitly. *)

From Stdlib Require Import ZArith QArith Qabs Strings.String Strings.Byte DecimalString.
From Stdlib Require Import Floats.SpecFloat.
From stdpp Require Import base list gmap strings.

Local Open Scope Z_scope.

(* ===================================================================== *)
(** ** binary64 arithmetic *)
(* ===================================================================== *)

Module F64.

Definition prec : Z := 53.
Definition emax : Z := 1024.

Definition float64 : Type := spec_float.

Definition mul : float64 -> float64 -> float64 := SFmul prec emax.
Definition add : float64 -> float64 -> float64 := SFadd prec emax.
Definition div : float64 -> float64 -> float64 := SFdiv prec emax.

(** [float64(n)] for an integer [n]: the nearest binary64 number. *)
Definition of_int (n : Z) : float64 := binary_normalize prec emax n 0 false.

(** The zero value of a [float64] variable. *)
Definition zero : float64 := S754_zero false.

(** An untyped decimal constant [n / d] converted to [float64]: the
    nearest binary64 number (ties to even).  [n] and [d] are chosen
    exactly representable, so the correctly rounded division yields it. *)
Definition of_ratio (n d : Z) : float64 := div (of_int n) (of_int d).

(** The exact rational value of a finite float. *)
Definition to_Q (x : float64) : option Q :=
  match x with
  | S754_zero _ => Some 0%Q
  | S754_finite s m e =>
      let v := (inject_Z (Z.pos m) * Qpower 2 e)%Q in
      Some (if s then Qopp v else v)
  | _ => None
  end.

(** [within x q eps]: [x] is finite and its exact value is at distance
    at most [eps] from the rational [q]. *)
Definition within (x : float64) (q eps : Q) : bool :=
  match to_Q x with
  | Some v => Qle_bool (Qabs (v - q)) eps
  | None => false
  end.

Definition ltb : float64 -> float64 -> bool := SFltb.

End F64.

Abbreviation float64 := F64.float64.

(* ===================================================================== *)
(** ** Bytes and the big-endian 16-bit decoder *)
(* ===================================================================== *)

Definition byte_val (b : byte) : Z := Z.of_N (Byte.to_N b).

(** Modelled from the spec: [utils.Int16FromBytesBE] of the rdk utility
    package is not part of the repository sources; the specification says
    it decodes two bytes as a big-endian signed 16-bit integer (range
    -32768..32767).  The unsigned value is built with shifts and the sign
    is recovered by wrap-around at 2^15.  A slice shorter than two bytes
    has no decoding. *)
Definition int16BE (hi lo : byte) : Z :=
  let u := Z.lor (Z.shiftl (byte_val hi) 8) (byte_val lo) in
  if u <? 32768 then u else u - 65536.

Definition Int16FromBytesBE (data : list byte) : option Z :=
  match data with
  | hi :: lo :: _ => Some (int16BE hi lo)
  | _ => None
  end.

(** [%d] applied to a byte, as [fmt] prints it. *)
Definition fmt_d (b : byte) : string :=
  NilZero.string_of_uint (N.to_uint (Byte.to_N b)).

(* ===================================================================== *)
(** ** Errors *)
(* ===================================================================== *)

(** A failure reported by the I2C collaborator (opening a handle, a block
    read, a byte write, closing a handle).  Only its message is observed
    by the driver. *)
Record busError := BusError { busErrorText : string }.

(** The Go [error] values the driver can hand out. *)
Inductive error :=
  | ErrBus (e : busError)                       (* a bus failure passed through unchanged *)
  | ErrWrap (cause : error) (msg : string)      (* errors.Wrap(cause, msg) *)
  | ErrErrorf (msg : string)                    (* errors.Errorf(format, args...) *)
  | ErrMethodUnimplementedLinearVelocity        (* sentinels of package movementsensor *)
  | ErrMethodUnimplementedOrientation
  | ErrMethodUnimplementedCompassHeading
  | ErrMethodUnimplementedPosition.

(** [true] on the errors that stem from an I2C transaction: a bus failure
    itself, or one wrapped with context. *)
Fixpoint is_transport (e : error) : bool :=
  match e with
  | ErrBus _ => true
  | ErrWrap c _ => is_transport c
  | _ => false
  end.

Definition addressReadError (err : error) (address : byte) (bus : string) : error :=
  let msg := ("can't read from I2C address " ++ fmt_d address ++ " on bus " ++ bus)%string in
  ErrWrap err msg.

Definition unexpectedDeviceError (address defaultAddress : byte) : error :=
  ErrErrorf ("unexpected non-MPU9250 device at address " ++ fmt_d address
             ++ ": response '" ++ fmt_d defaultAddress ++ "'")%string.

(** The text of [err.Error()] for the errors built above ([errors.Wrap]
    prints its message, a colon, and the cause).  The sentinels' texts
    live in package movementsensor and are not needed here. *)
Fixpoint errorText (sentinel : error -> string) (e : error) : string :=
  match e with
  | ErrBus b => busErrorText b
  | ErrWrap c msg => (msg ++ ": " ++ errorText sentinel c)%string
  | ErrErrorf msg => msg
  | _ => sentinel e
  end.

(* ===================================================================== *)
(** ** Geometry records of the collaborating packages *)
(* ===================================================================== *)

Module r3.
Record Vector := mkVector { X : float64; Y : float64; Z : float64 }.
(** [r3.Vector{}] *)
Definition zero : Vector := mkVector F64.zero F64.zero F64.zero.
End r3.

Module spatialmath.
Record AngularVelocity := mkAngularVelocity { X : float64; Y : float64; Z : float64 }.
Definition zero : AngularVelocity := mkAngularVelocity F64.zero F64.zero F64.zero.
(** The driver only ever builds the value [NewOrientationVector()]. *)
Inductive Orientation := NewOrientationVector.
End spatialmath.

Module geo.
Record Point := NewPoint { lat : float64; lng : float64 }.
End geo.

Module movementsensor.
(** The driver only ever builds [UnimplementedOptionalAccuracies()]. *)
Inductive Accuracy := UnimplementedOptionalAccuracies.
Record Properties := {
  AngularVelocitySupported : bool;
  LinearAccelerationSupported : bool
}.
End movementsensor.

(* ===================================================================== *)
(** ** Constants of the package *)
(* ===================================================================== *)

Definition defaultAddressRegister : byte := x75.            (* 117 *)
Definition expectedDefaultAddress : byte := x68.
Definition expectedConfigurationReadAddress : byte := x71.
Definition alternateAddress : byte := x69.

Record Config := { I2cBus : string; UseAlternateI2CAddress : bool }.

(* ===================================================================== *)
(** ** Collaborators: the I2C bus and the windowed error tracker *)
(* ===================================================================== *)

(** The [buses.I2C] collaborator over a bus state [B].  A handle is
    identified with the address it was opened at.  [None] as an error
    result is Go's [nil]. *)
Record I2C (B : Type) := {
  OpenHandle : byte -> B -> option busError * B;
  ReadBlockData : byte -> byte -> N -> B -> (list byte + busError) * B;
  WriteByteData : byte -> byte -> byte -> B -> option busError * B;
  HandleClose : byte -> B -> option busError * B
}.
Arguments OpenHandle {B}.
Arguments ReadBlockData {B}.
Arguments WriteByteData {B}.
Arguments HandleClose {B}.

(** The interface of [movementsensor.LastError] as the driver uses it:
    [NewLastError size threshold], [Set err], and [Get], which yields the
    tracker's verdict and may update the tracker. *)
Class LastError (T : Type) := {
  NewLastError : Z -> Z -> T;
  LastError_Set : T -> option error -> T;
  LastError_Get : T -> option error * T
}.

(** What the driver does to the outside world, in order. *)
Inductive event :=
  | EvOpenHandle (address : byte)
  | EvReadBlockData (register : byte) (length : N)
  | EvWriteByteData (register value : byte)
  | EvHandleClose
  | EvLock
  | EvUnlock
  | EvWorkersStart
  | EvWorkersStop.

Inductive logEntry :=
  | LogDebugf (msg : string)
  | LogErrorf (msg : string)
  | LogError (e : error).

(** [sensor.workers]: a nil pointer until construction starts the
    background goroutine; [Stop] cancels it and waits for it to return. *)
Inductive workerState := WorkersNil | WorkersRunning | WorkersStopped.

(** The struct behind a sensor, without the immutable collaborators. *)
Record mpu9250 (T : Type) := {
  i2cAddress : byte;
  angularVelocity : spatialmath.AngularVelocity;
  temperature : float64;
  linearAcceleration : r3.Vector;
  err : T;
  workers : workerState
}.
Arguments i2cAddress {T}.
Arguments angularVelocity {T}.
Arguments temperature {T}.
Arguments linearAcceleration {T}.
Arguments err {T}.
Arguments workers {T}.

(** Everything outside the sensor struct that the driver reads or writes:
    the bus, the logger, the order of side effects, and the two package
    variables holding the scales. *)
Record world (B : Type) := {
  bus : B;
  logs : list logEntry;
  trace : list event;
  accelScale : float64;
  gyroScale : float64
}.
Arguments bus {B}.
Arguments logs {B}.
Arguments trace {B}.
Arguments accelScale {B}.
Arguments gyroScale {B}.

(** A computation either returns with a new world or panics. *)
Inductive outcome (B A : Type) :=
  | Done (a : A) (w : world B)
  | Panicked (w : world B).
Arguments Done {B A}.
Arguments Panicked {B A}.

Definition M (B A : Type) : Type := world B -> outcome B A.

#[export] Instance M_ret {B} : MRet (M B) := fun A a w => Done a w.
#[export] Instance M_bind {B} : MBind (M B) := fun A A' f m w =>
  match m w with
  | Done a w' => f a w'
  | Panicked w' => Panicked w'
  end.

Definition panic {B A} : M B A := fun w => Panicked w.

Section Effects.
Context {B : Type}.

(** The world after some more events, and after one more log entry. *)
Definition emits (w : world B) (es : list event) : world B :=
  {| bus := bus w; logs := logs w; trace := trace w ++ es;
     accelScale := accelScale w; gyroScale := gyroScale w |}.

Definition logged (w : world B) (l : logEntry) : world B :=
  {| bus := bus w; logs := logs w ++ [l]; trace := trace w;
     accelScale := accelScale w; gyroScale := gyroScale w |}.

Definition emit (e : event) : M B unit := fun w => Done tt (emits w [e]).

Definition log (l : logEntry) : M B unit := fun w => Done tt (logged w l).

Context (i2c : I2C B).

(** Run a bus operation and record it. *)
Definition on_bus {A} (e : event) (op : B -> A * B) : M B A := fun w =>
  let '(a, b) := op (bus w) in
  Done a {| bus := b; logs := logs w; trace := trace w ++ [e];
            accelScale := accelScale w; gyroScale := gyroScale w |}.

Definition set_scales (g a : float64) : M B unit := fun w =>
  Done tt {| bus := bus w; logs := logs w; trace := trace w;
             accelScale := a; gyroScale := g |}.

Definition get_accelScale : M B float64 := fun w => Done (accelScale w) w.
Definition get_gyroScale : M B float64 := fun w => Done (gyroScale w) w.

(** The deferred closure of [readBlock] and [writeByte]: close the
    handle and log a failure to do so. *)
Definition closeHandle (address : byte) : M B unit :=
  r ← on_bus EvHandleClose (HandleClose i2c address);
  match r with
  | Some e => log (LogError (ErrBus e))
  | None => mret tt
  end.

Section Driver.
Context {T : Type}.

Definition readBlock (mpu : mpu9250 T) (register : byte) (length : N)
  : M B (list byte + busError) :=
  h ← on_bus (EvOpenHandle (i2cAddress mpu)) (OpenHandle i2c (i2cAddress mpu));
  match h with
  | Some e => mret (inr e)
  | None =>
      results ← on_bus (EvReadBlockData register length)
                       (ReadBlockData i2c (i2cAddress mpu) register length);
      closeHandle (i2cAddress mpu);;
      mret results
  end.

(** [result[0]] panics on an empty slice. *)
Definition readByte (mpu : mpu9250 T) (register : byte) : M B (byte + busError) :=
  r ← readBlock mpu register 1;
  match r with
  | inr e => mret (inr e)
  | inl [] => panic
  | inl (b :: _) => mret (inl b)
  end.

Definition writeByte (mpu : mpu9250 T) (register value : byte) : M B (option busError) :=
  h ← on_bus (EvOpenHandle (i2cAddress mpu)) (OpenHandle i2c (i2cAddress mpu));
  match h with
  | Some e => mret (Some e)
  | None =>
      r ← on_bus (EvWriteByteData register value)
                 (WriteByteData i2c (i2cAddress mpu) register value);
      closeHandle (i2cAddress mpu);;
      mret r
  end.

(** The [switch] on the gyroscope register.  Its case labels are the
    Go literals [00], [01], [10], [11] (written [0o0], [0o1], [10], [11]
    in mpu/mpu9250.go): the first two are octal (0 and 1), the last two
    decimal (ten and eleven).  The whole byte is compared; when no case
    matches, the local stays at its zero value. *)
Definition gyroScaleOf (result : byte) : float64 :=
  match Byte.to_N result with
  | 0%N => F64.of_ratio 250 32768
  | 1%N => F64.of_ratio 500 32768
  | 10%N => F64.of_ratio 1000 32768
  | 11%N => F64.of_ratio 2000 32768
  | _ => F64.zero
  end.

(** The [switch] on the accelerometer register, with the same labels. *)
Definition accelScaleOf (result : byte) : float64 :=
  match Byte.to_N result with
  | 0%N => F64.of_ratio 2 32768
  | 1%N => F64.of_ratio 4 32768
  | 10%N => F64.of_ratio 8 32768
  | 11%N => F64.of_ratio 16 32768
  | _ => F64.zero
  end.

(** Returns [(gyroScale, accelScale, err)]. *)
Definition getReadingScales (mpu : mpu9250 T)
  : M B (float64 * float64 * option busError) :=
  r ← readByte mpu x1b;                                  (* register 27 *)
  match r with
  | inr e => mret (F64.zero, F64.zero, Some e)
  | inl result =>
      let gyroScale := gyroScaleOf result in
      r ← readByte mpu x1c;                              (* register 28 *)
      match r with
      | inr e => mret (F64.zero, F64.zero, Some e)
      | inl result =>
          let accelScale := accelScaleOf result in
          mret (gyroScale, accelScale, None)
      end
  end.

End Driver.
End Effects.

(* ===================================================================== *)
(** ** Unit conversion *)
(* ===================================================================== *)

(** Given a value, scales it so that the range of int16s becomes the range
    of +/- maxValue. *)
Definition setScale (value : Z) (maxValue : float64) : float64 :=
  F64.mul (F64.of_int value) maxValue.

(** The constants [9.81], [333.87] and [21.0]. *)
Definition c_9_81 : float64 := F64.of_ratio 981 100.
Definition c_333_87 : float64 := F64.of_ratio 33387 100.
Definition c_21 : float64 := F64.of_int 21.

(** [float64(utils.Int16FromBytesBE(...))/333.87 + 21.0] on the decoded
    value. *)
Definition toTemperature (decoded : Z) : float64 :=
  F64.add (F64.div (F64.of_int decoded) c_333_87) c_21.

Section Conversion.
Context {B : Type}.

(** [data[lo:hi]]: a slice expression panics when [hi] exceeds what the
    slice holds. *)
Definition slice (data : list byte) (lo hi : nat) : M B (list byte) :=
  if ((lo <=? hi)%nat && (hi <=? length data)%nat)%bool
  then mret (take (hi - lo) (drop lo data))
  else panic.

Definition int16 (data : list byte) : M B Z :=
  match Int16FromBytesBE data with
  | Some v => mret v
  | None => panic
  end.

(** Takes 6 bytes and gives back AngularVelocity; reads the package
    variable [gyroScale]. *)
Definition toAngularVelocity (data : list byte) : M B spatialmath.AngularVelocity :=
  gx ← slice data 0 2 ≫= int16;
  gy ← slice data 2 4 ≫= int16;
  gz ← slice data 4 6 ≫= int16;
  gyroScale ← get_gyroScale;
  mret (spatialmath.mkAngularVelocity
          (setScale gx gyroScale) (setScale gy gyroScale) (setScale gz gyroScale)).

(** Takes 6 bytes and gives back linear acceleration; reads the package
    variable [accelScale]. *)
Definition toLinearAcceleration (data : list byte) : M B r3.Vector :=
  x ← slice data 0 2 ≫= int16;
  y ← slice data 2 4 ≫= int16;
  z ← slice data 4 6 ≫= int16;
  accelScale ← get_accelScale;
  mret (r3.mkVector
          (F64.mul (setScale x accelScale) c_9_81)
          (F64.mul (setScale y accelScale) c_9_81)
          (F64.mul (setScale z accelScale) c_9_81)).

End Conversion.

(* ===================================================================== *)
(** ** The sensor: construction, polling goroutine, accessors *)
(* ===================================================================== *)

(** [resource.Config] as far as the driver looks at it: the outcome of
    [resource.NativeConfig]. *)
Record resourceConfig := { NativeConfig : Config + error }.

(** What the [select] of the polling goroutine receives. *)
Inductive loopEvent := TimerTick | Cancelled.

(** The values stored in the map that [Readings] returns. *)
Inductive reading :=
  | RVector (v : r3.Vector)
  | RFloat (f : float64)
  | RAngularVelocity (a : spatialmath.AngularVelocity).

Section Sensor.
Context {B : Type} (i2c : I2C B) {T : Type} `{!LastError T}.

Definition with_err (mpu : mpu9250 T) (t : T) : mpu9250 T :=
  {| i2cAddress := i2cAddress mpu; angularVelocity := angularVelocity mpu;
     temperature := temperature mpu; linearAcceleration := linearAcceleration mpu;
     err := t; workers := workers mpu |}.

Definition with_workers (mpu : mpu9250 T) (ws : workerState) : mpu9250 T :=
  {| i2cAddress := i2cAddress mpu; angularVelocity := angularVelocity mpu;
     temperature := temperature mpu; linearAcceleration := linearAcceleration mpu;
     err := err mpu; workers := ws |}.

Definition with_sample (mpu : mpu9250 T) (la : r3.Vector) (t : float64)
    (av : spatialmath.AngularVelocity) : mpu9250 T :=
  {| i2cAddress := i2cAddress mpu; angularVelocity := av;
     temperature := t; linearAcceleration := la;
     err := err mpu; workers := workers mpu |}.

(** The [err] of a [(value, err)] pair. *)
Definition read_err {A} (r : A + busError) : option busError :=
  match r with inl _ => None | inr e => Some e end.

(** The body of [case <-timer.C:] in the goroutine. *)
Definition pollTick (sensor : mpu9250 T) : M B (mpu9250 T) :=
  r ← readBlock i2c sensor x3b 14;                          (* register 59 *)
  (* Record [err] no matter what: even if it's nil. *)
  let sensor := with_err sensor (LastError_Set (err sensor) (ErrBus <$> read_err r)) in
  match r with
  | inr e =>
      log (LogErrorf ("error reading MPU9250 sensor: '" ++ busErrorText e ++ "'"));;
      mret sensor                                           (* continue *)
  | inl rawData =>
      linearAcceleration ← slice rawData 0 6 ≫= toLinearAcceleration;
      decoded ← slice rawData 6 8 ≫= int16;
      let temperature := toTemperature decoded in
      angularVelocity ← slice rawData 8 14 ≫= toAngularVelocity;
      emit EvLock;;
      let sensor := with_sample sensor linearAcceleration temperature angularVelocity in
      emit EvUnlock;;
      mret sensor
  end.

(** The [for { select { ... } }] loop, driven by what the [select]
    receives; it blocks when nothing more arrives. *)
Fixpoint pollLoop (events : list loopEvent) (sensor : mpu9250 T) : M B (mpu9250 T) :=
  match events with
  | [] => mret sensor
  | TimerTick :: rest => sensor ← pollTick sensor; pollLoop rest sensor
  | Cancelled :: _ => mret sensor
  end.

(** The struct literal of [makeMpu9250].  On overloaded boards, the I2C
    bus can become flaky: only report errors if at least 5 of the last
    10 attempts to talk to the device have failed. *)
Definition newSensor (address : byte) : mpu9250 T :=
  {| i2cAddress := address;
     angularVelocity := spatialmath.zero;
     temperature := F64.zero;
     linearAcceleration := r3.zero;
     err := NewLastError 10 5;
     workers := WorkersNil |}.

(** How many ticks the loop serves before it is cancelled or blocks. *)
Fixpoint ticks (events : list loopEvent) : nat :=
  match events with
  | TimerTick :: rest => S (ticks rest)
  | _ => 0
  end.

(** Returns [(sensor, err)]; the goroutine it starts is [pollLoop]. *)
Definition makeMpu9250 (conf : resourceConfig) : M B (option (mpu9250 T) * option error) :=
  match NativeConfig conf with
  | inr e => mret (None, Some e)
  | inl newConf =>
      let address :=
        if UseAlternateI2CAddress newConf then alternateAddress else expectedDefaultAddress in
      log (LogDebugf ("Using address " ++ fmt_d address ++ " for MPU9250 sensor"));;
      let sensor := newSensor address in
      r ← readByte i2c sensor defaultAddressRegister;
      match r with
      | inr e => mret (None, Some (addressReadError (ErrBus e) address (I2cBus newConf)))
      | inl defaultAddress =>
          if negb (Byte.eqb defaultAddress expectedConfigurationReadAddress)
          then mret (None, Some (unexpectedDeviceError address defaultAddress))
          else
            e ← writeByte i2c sensor x6b x00;               (* register 107 *)
            match e with
            | Some e =>
                mret (None, Some (ErrErrorf ("Unable to wake up MPU9250: '"
                                             ++ busErrorText e ++ "'")))
            | None =>
                '(g, a, e) ← getReadingScales i2c sensor;
                set_scales g a;;
                match e with
                | Some e => mret (None, Some (ErrBus e))
                | None =>
                    emit EvWorkersStart;;
                    mret (Some (with_workers sensor WorkersRunning), None)
                end
            end
      end
  end.

Definition AngularVelocity (mpu : mpu9250 T)
  : M B (spatialmath.AngularVelocity * option error * mpu9250 T) :=
  emit EvLock;;
  let '(e, t) := LastError_Get (err mpu) in
  emit EvUnlock;;
  mret (angularVelocity mpu, e, with_err mpu t).

Definition LinearVelocity (mpu : mpu9250 T) : M B (r3.Vector * option error * mpu9250 T) :=
  mret (r3.zero, Some ErrMethodUnimplementedLinearVelocity, mpu).

Definition LinearAcceleration (mpu : mpu9250 T)
  : M B (r3.Vector * option error * mpu9250 T) :=
  emit EvLock;;
  let '(lastError, t) := LastError_Get (err mpu) in
  let mpu' := with_err mpu t in
  match lastError with
  | Some e => emit EvUnlock;; mret (r3.zero, Some e, mpu')
  | None => emit EvUnlock;; mret (linearAcceleration mpu, None, mpu')
  end.

Definition Orientation (mpu : mpu9250 T)
  : M B (spatialmath.Orientation * option error * mpu9250 T) :=
  mret (spatialmath.NewOrientationVector, Some ErrMethodUnimplementedOrientation, mpu).

Definition CompassHeading (mpu : mpu9250 T) : M B (float64 * option error * mpu9250 T) :=
  mret (F64.zero, Some ErrMethodUnimplementedCompassHeading, mpu).

Definition Position (mpu : mpu9250 T)
  : M B (geo.Point * float64 * option error * mpu9250 T) :=
  mret (geo.NewPoint F64.zero F64.zero, F64.zero, Some ErrMethodUnimplementedPosition, mpu).

Definition Accuracy (mpu : mpu9250 T)
  : M B (movementsensor.Accuracy * option error * mpu9250 T) :=
  mret (movementsensor.UnimplementedOptionalAccuracies, None, mpu).

Definition Readings (mpu : mpu9250 T)
  : M B (gmap string reading * option error * mpu9250 T) :=
  emit EvLock;;
  let readings : gmap string reading := ∅ in
  let readings := <["linear_acceleration" := RVector (linearAcceleration mpu)]> readings in
  let readings := <["temperature_celsius" := RFloat (temperature mpu)]> readings in
  let readings := <["angular_velocity" := RAngularVelocity (angularVelocity mpu)]> readings in
  let '(e, t) := LastError_Get (err mpu) in
  emit EvUnlock;;
  mret (readings, e, with_err mpu t).

Definition Properties (mpu : mpu9250 T)
  : M B (movementsensor.Properties * option error * mpu9250 T) :=
  mret ({| movementsensor.AngularVelocitySupported := true;
           movementsensor.LinearAccelerationSupported := true |},
        None, mpu).

(** [mpu.workers.Stop()] on the nil pointer of a sensor that was never
    started has no goroutine to stop and panics. *)
Definition Close (mpu : mpu9250 T) : M B (option error * mpu9250 T) :=
  match workers mpu with
  | WorkersNil => panic
  | _ =>
      emit EvWorkersStop;;
      let mpu := with_workers mpu WorkersStopped in
      emit EvLock;;
      e ← writeByte i2c mpu x6b x40;                        (* register 107, 1<<6 *)
      match e with
      | Some e => log (LogError (ErrBus e));; emit EvUnlock;; mret (Some (ErrBus e), mpu)
      | None => emit EvUnlock;; mret (None, mpu)
      end
  end.

End Sensor.

(* ===================================================================== *)
(** ** The windowed error tracker *)
(* ===================================================================== *)

Module Window.

(** Modelled from the spec: [movementsensor.LastError] belongs to the rdk
    package and is not among the repository sources.  The specification
    describes it as a sliding-window fault tracker over the last N
    transport attempts that reports faulted only when a threshold of the
    recent attempts failed, mutated only by the acquisition loop and
    read by the accessors; the driver builds it with
    [NewLastError(10, 5)] under the comment "only report errors if at
    least 5 of the last 10 attempts to talk to the device have failed".
    The window holds the outcomes oldest first; recording drops the
    oldest and appends the newest; the verdict is the most recent
    recorded error once the number of failures in the window reaches the
    threshold, and reading leaves the window as it is. *)
Record t := { threshold : Z; errs : list (option error) }.

Definition new (size threshold : Z) : t :=
  {| threshold := threshold; errs := replicate (Z.to_nat size) None |}.

Definition set (le : t) (e : option error) : t :=
  {| threshold := threshold le; errs := drop 1 (errs le) ++ [e] |}.

(** Number of failed attempts in a list of outcomes. *)
Definition failures (outcomes : list (option error)) : Z :=
  Z.of_nat (length (filter is_Some outcomes)).

Definition faulted (le : t) : bool := threshold le <=? failures (errs le).

(** The most recent failure among the outcomes, if any. *)
Definition latest (outcomes : list (option error)) : option error :=
  last (omap id outcomes).

Definition get (le : t) : option error * t :=
  (if faulted le then latest (errs le) else None, le).

(** The attempts that still matter to a window of [n] outcomes. *)
Definition recent (n : nat) (attempts : list (option error)) : list (option error) :=
  drop (length attempts - n) attempts.

End Window.

#[export] Instance Window_LastError : LastError Window.t := {
  NewLastError := Window.new;
  LastError_Set := Window.set;
  LastError_Get := Window.get
}.

(* ===================================================================== *)
(** ** A simulated bus *)
(* ===================================================================== *)

Module SimBus.

(** A register file with a schedule of faults: each transaction takes
    the next entry of [faults] ([true] fails it); when the schedule is
    used up every transaction behaves as [later] says.  Registers are an
    association list, newest first; unlisted registers read 0.  Opening
    and closing a handle always work. *)
Record t := {
  regs : list (N * byte);
  faults : list bool;
  later : bool
}.

Definition next_fault (b : t) : bool * t :=
  match faults b with
  | f :: fs => (f, {| regs := regs b; faults := fs; later := later b |})
  | [] => (later b, b)
  end.

Definition reg_at (b : t) (n : N) : byte :=
  match List.find (fun p => (fst p =? n mod 256)%N) (regs b) with
  | Some p => snd p
  | None => x00
  end.

Definition read (register : byte) (length : N) (b : t) : (list byte + busError) * t :=
  let '(f, b') := next_fault b in
  if f then (inr (BusError "remote I/O error"), b')
  else (inl (map (fun i => reg_at b (Byte.to_N register + N.of_nat i)%N)
                 (seq 0 (N.to_nat length))), b').

Definition write (register value : byte) (b : t) : option busError * t :=
  let '(f, b') := next_fault b in
  if f then (Some (BusError "remote I/O error"), b')
  else (None, {| regs := (Byte.to_N register, value) :: regs b';
                 faults := faults b'; later := later b' |}).

Definition i2c : I2C t := {|
  OpenHandle := fun _ b => (None, b);
  ReadBlockData := fun _ => read;
  WriteByteData := fun _ => write;
  HandleClose := fun _ b => (None, b)
|}.

Definition world0 (b : t) : world t :=
  {| bus := b; logs := []; trace := []; accelScale := F64.zero; gyroScale := F64.zero |}.

End SimBus.

(* ===================================================================== *)
(** ** The method set of the sensor *)
(* ===================================================================== *)

Section Methods.
Context {B : Type} (i2c : I2C B) {T : Type} `{!LastError T}.

(** Keep only the error and the receiver of a method's results. *)
Definition err_only {A} (m : M B (A * option error * mpu9250 T))
  : M B (option error * mpu9250 T) :=
  '(_, e, mpu) ← m; mret (e, mpu).

(** The methods declared on [*mpu9250], looked up by name; a name that is
    not declared has no method. *)
Definition method (name : string) : option (mpu9250 T -> M B (option error * mpu9250 T)) :=
  if String.eqb name "AngularVelocity" then Some (fun mpu => err_only (AngularVelocity mpu))
  else if String.eqb name "LinearVelocity" then Some (fun mpu => err_only (LinearVelocity mpu))
  else if String.eqb name "LinearAcceleration" then
    Some (fun mpu => err_only (LinearAcceleration mpu))
  else if String.eqb name "Orientation" then Some (fun mpu => err_only (Orientation mpu))
  else if String.eqb name "CompassHeading" then Some (fun mpu => err_only (CompassHeading mpu))
  else if String.eqb name "Position" then
    Some (fun mpu => '(_, _, e, mpu) ← Position mpu; mret (e, mpu))
  else if String.eqb name "Accuracy" then Some (fun mpu => err_only (Accuracy mpu))
  else if String.eqb name "Readings" then Some (fun mpu => err_only (Readings mpu))
  else if String.eqb name "Properties" then Some (fun mpu => err_only (Properties mpu))
  else if String.eqb name "Close" then Some (Close i2c)
  else None.

End Methods.

(** The sentinels that say a capability is not implemented. *)
Definition is_unimplemented (e : error) : bool :=
  match e with
  | ErrMethodUnimplementedLinearVelocity
  | ErrMethodUnimplementedOrientation
  | ErrMethodUnimplementedCompassHeading
  | ErrMethodUnimplementedPosition => true
  | _ => false
  end.

(* ===================================================================== *)
(** ** Scenarios on the simulated bus *)
(* ===================================================================== *)

Module Scenario.

Definition conf : resourceConfig :=
  {| NativeConfig := inl {| I2cBus := "1"; UseAlternateI2CAddress := false |} |}.

(** Construct a sensor on bus [b], then let the goroutine see [n] timer
    ticks.  [None] when construction fails or something panics. *)
Definition run (b : SimBus.t) (n : nat) : option (mpu9250 Window.t * world SimBus.t) :=
  match makeMpu9250 SimBus.i2c conf (SimBus.world0 b) with
  | Done (Some sensor, None) w =>
      match pollLoop SimBus.i2c (replicate n TimerTick) sensor w with
      | Done sensor' w' => Some (sensor', w')
      | Panicked _ => None
      end
  | _ => None
  end.

Definition sensor_of (r : option (mpu9250 Window.t * world SimBus.t)) : mpu9250 Window.t :=
  match r with Some (s, _) => s | None => newSensor expectedDefaultAddress end.

Definition world_of (b : SimBus.t) (r : option (mpu9250 Window.t * world SimBus.t))
  : world SimBus.t :=
  match r with Some (_, w) => w | None => SimBus.world0 b end.

(** Scenario A: the identity byte is right, construction succeeds, and
    every later transaction fails. *)
Definition busA : SimBus.t :=
  {| SimBus.regs := [(117%N, x71)];
     SimBus.faults := [false; false; false; false];
     SimBus.later := true |}.
Definition sensorA : mpu9250 Window.t := Eval vm_compute in sensor_of (run busA 10).
Definition worldA : world SimBus.t := Eval vm_compute in world_of busA (run busA 10).

(** Scenario B: scale codes (0, 0); the accelerometer registers hold
    (0, 0, 16384), the temperature and gyroscope registers hold 0. *)
Definition busB : SimBus.t :=
  {| SimBus.regs := [(117%N, x71); (63%N, x40); (64%N, x00)];
     SimBus.faults := [];
     SimBus.later := false |}.
Definition sensorB0 : mpu9250 Window.t := Eval vm_compute in sensor_of (run busB 0).
Definition worldB0 : world SimBus.t := Eval vm_compute in world_of busB (run busB 0).
Definition sensorB : mpu9250 Window.t := Eval vm_compute in sensor_of (run busB 1).
Definition worldB : world SimBus.t := Eval vm_compute in world_of busB (run busB 1).

(** The wrong device answers: register 117 reads 0x70. *)
Definition busMismatch : SimBus.t :=
  {| SimBus.regs := [(117%N, x70)]; SimBus.faults := []; SimBus.later := false |}.

(** The scale registers hold the codes 2 and 3. *)
Definition busCodes23 : SimBus.t :=
  {| SimBus.regs := [(117%N, x71); (27%N, x02); (28%N, x03)];
     SimBus.faults := [];
     SimBus.later := false |}.

(** Construction succeeds, three polls succeed, and the bus then fails. *)
Definition busLateFault : SimBus.t :=
  {| SimBus.regs := [(117%N, x71); (59%N, x01); (67%N, x02)];
     SimBus.faults := [false; false; false; false; false; false; false];
     SimBus.later := true |}.
Definition sensorLate : mpu9250 Window.t :=
  Eval vm_compute in sensor_of (run busLateFault 3).
Definition worldLate : world SimBus.t :=
  Eval vm_compute in world_of busLateFault (run busLateFault 3).

(** The world a computation leaves behind. *)
Definition world_after {A} (o : outcome SimBus.t A) : world SimBus.t :=
  match o with Done _ w => w | Panicked w => w end.

(** Scenario B, after the burst read of its first tick. *)
Definition worldB1 : world SimBus.t :=
  Eval vm_compute in world_after (readBlock SimBus.i2c sensorB0 x3b 14 worldB0).

(** The late fault, after the failed burst read of the fourth tick. *)
Definition worldLate1 : world SimBus.t :=
  Eval vm_compute in world_after (readBlock SimBus.i2c sensorLate x3b 14 worldLate).

(** The wrong device, after the read of the identity register. *)
Definition worldMismatch0 : world SimBus.t :=
  logged (SimBus.world0 busMismatch) (LogDebugf "Using address 104 for MPU9250 sensor").
Definition worldMismatch1 : world SimBus.t :=
  Eval vm_compute in
    world_after (readByte SimBus.i2c (newSensor (T:=Window.t) expectedDefaultAddress)
                   defaultAddressRegister worldMismatch0).

(** Scenario A, after the failed write of [Close]. *)
Definition worldA1 : world SimBus.t :=
  Eval vm_compute in
    world_after (writeByte SimBus.i2c (with_workers sensorA WorkersStopped) x6b x40
                   (emits worldA [EvWorkersStop; EvLock])).

Definition ioError : busError := BusError "remote I/O error".

End Scenario.

(* ===================================================================== *)
(** ** More of the driver *)
(* ===================================================================== *)

Section AccelScale.
Context {B : Type} (i2c : I2C B) {T : Type}.

(** [getAccelScale]: the accelerometer half of [getReadingScales] as a
    function of its own, with the same case labels. *)
Definition getAccelScale (mpu : mpu9250 T) : M B (float64 * option busError) :=
  r ← readByte i2c mpu x1c;                                  (* register 28 *)
  match r with
  | inr e => mret (F64.zero, Some e)
  | inl result =>
      match Byte.to_N result with
      | 0%N => mret (F64.of_ratio 2 32768, None)
      | 1%N => mret (F64.of_ratio 4 32768, None)
      | 10%N => mret (F64.of_ratio 8 32768, None)
      | 11%N => mret (F64.of_ratio 16 32768, None)
      | _ => mret (F64.zero, None)
      end
  end.

End AccelScale.

(* ===================================================================== *)
(** ** Validation of the configuration *)
(* ===================================================================== *)

(** [resource.NewConfigValidationFieldRequiredError(path, field)]. *)
Inductive validationError := FieldRequiredError (path field : string).

(** [Validate] returns the dependencies (always the nil slice) and an
    error. *)
Definition Validate (conf : Config) (path : string) : list string * option validationError :=
  if String.eqb (I2cBus conf) ""
  then ([], Some (FieldRequiredError path "i2c_bus"))
  else ([], None).

(* ===================================================================== *)
(** ** Checking a property on a range of integers *)
(* ===================================================================== *)

(** [check] holds on the [n] integers from [z] on. *)
Fixpoint all_from (check : Z -> bool) (n : nat) (z : Z) : bool :=
  match n with
  | O => true
  | S n' => check z && all_from check n' (z + 1)
  end.

(** Scaling [d] by a scale of 0 gives a zero with the sign of [d]. *)
Definition zero_scaled (d : Z) : bool :=
  match setScale d F64.zero with
  | S754_zero s => Bool.eqb s (d <? 0)
  | _ => false
  end.

(* ===================================================================== *)
(** ** Shapes of event sequences *)
(* ===================================================================== *)

(** The events of one read transaction at [address]: the handle could not
    be opened, or it was opened, read from and closed. *)
Definition read_events (address register : byte) (length : N) (es : list event) : Prop :=
  es = [EvOpenHandle address]
  ∨ es = [EvOpenHandle address; EvReadBlockData register length; EvHandleClose].

(** The events of one write transaction at [address]. *)
Definition write_events (address register value : byte) (es : list event) : Prop :=
  es = [EvOpenHandle address]
  ∨ es = [EvOpenHandle address; EvWriteByteData register value; EvHandleClose].

(** The events of one tick of the polling goroutine: a failed burst read,
    or a burst read followed by the publication under the lock. *)
Definition tick_events (address : byte) (es : list event) : Prop :=
  read_events address x3b 14 es
  ∨ es = [EvOpenHandle address; EvReadBlockData x3b 14; EvHandleClose; EvLock; EvUnlock].

(** The events of [n] ticks in a row. *)
Fixpoint poll_events (address : byte) (n : nat) (es : list event) : Prop :=
  match n with
  | O => es = []
  | S n' => ∃ tick rest, es = tick ++ rest ∧ tick_events address tick
                         ∧ poll_events address n' rest
  end.

(** Every [Lock] is followed at once by its [Unlock], and no [Unlock]
    comes without a [Lock]: nothing happens while the mutex is held. *)
Fixpoint brief_locks (es : list event) : bool :=
  match es with
  | [] => true
  | EvLock :: EvUnlock :: rest => brief_locks rest
  | EvLock :: _ => false
  | EvUnlock :: _ => false
  | _ :: rest => brief_locks rest
  end.

(** The events that start a transaction. *)
Definition is_open (e : event) : bool :=
  match e with
  | EvOpenHandle _ => true
  | _ => false
  end.

(* ===================================================================== *)
(** ** Package mpu: construction of the MPU-9250 with its magnetometer *)
(* ===================================================================== *)

Module pkg_mpu.

Definition expectedConfigurationReadAddress : byte := x71.
Definition magnetometerAddress : byte := x0c.
Definition magnetometerWhoAmI : byte := x00.
Definition magnetometerWhoAmIReturn : byte := x48.

(** The struct [mpu] of the package, as its literal in [makeMpu9250]
    shows it: the fields of the sensor above and the address of the
    magnetometer.  Its methods [readByte], [writeByte] and [readBlock]
    are declared outside mpu9250.go; the package's [getReadingScales]
    is, label for label, the one above, and the register methods above
    stand for the undeclared ones. *)
Record mpu (T : Type) := {
  sensor : mpu9250 T;
  magAddress : byte
}.
Arguments sensor {T}.
Arguments magAddress {T}.

Section Magnetometer.
Context {B : Type} (i2c : I2C B) {T : Type} `{!LastError T}.

Definition readMagBlock (m : mpu T) (register : byte) (length : N)
  : M B (list byte + busError) :=
  h ← on_bus (EvOpenHandle (magAddress m)) (OpenHandle i2c (magAddress m));
  match h with
  | Some e => mret (inr e)
  | None =>
      results ← on_bus (EvReadBlockData register length)
                       (ReadBlockData i2c (magAddress m) register length);
      closeHandle i2c (magAddress m);;
      mret results
  end.

(** Returns [(0, err)] on failure. *)
Definition readMagByte (m : mpu T) (register : byte) : M B (byte * option busError) :=
  r ← readMagBlock m register 1;
  match r with
  | inr e => mret (x00, Some e)
  | inl [] => panic
  | inl (b :: _) => mret (b, None)
  end.

Definition writeMagByte (m : mpu T) (register value : byte) : M B (option busError) :=
  h ← on_bus (EvOpenHandle (magAddress m)) (OpenHandle i2c (magAddress m));
  match h with
  | Some e => mret (Some e)
  | None =>
      r ← on_bus (EvWriteByteData register value)
                 (WriteByteData i2c (magAddress m) register value);
      closeHandle i2c (magAddress m);;
      mret r
  end.

(** What the magnetometer check writes to the log: nothing when the
    who-am-I byte is the expected one. *)
Definition magCheck (defaultMagAddress : byte) : M B unit :=
  if negb (Byte.eqb defaultMagAddress magnetometerWhoAmIReturn)
  then log (LogErrorf ("mag address wrong. expected 72, got " ++ fmt_d defaultMagAddress))
  else mret tt.

(** [makeMpu9250] of package mpu, up to the start of the goroutine.  The
    error of the magnetometer read is assigned and never looked at. *)
Definition makeMpu9250 (conf : resourceConfig) : M B (option (mpu T) * option error) :=
  match NativeConfig conf with
  | inr e => mret (None, Some e)
  | inl newConf =>
      let address :=
        if UseAlternateI2CAddress newConf then alternateAddress else expectedDefaultAddress in
      log (LogDebugf ("Using address " ++ fmt_d address ++ " for MPU9250 sensor"));;
      let m := {| sensor := newSensor address; magAddress := magnetometerAddress |} in
      r ← readByte i2c (sensor m) defaultAddressRegister;
      match r with
      | inr e => mret (None, Some (addressReadError (ErrBus e) address (I2cBus newConf)))
      | inl defaultAddress =>
          if negb (Byte.eqb defaultAddress expectedConfigurationReadAddress)
          then mret (None, Some (unexpectedDeviceError address defaultAddress))
          else
            e ← writeByte i2c (sensor m) x6b x00;             (* register 107 *)
            match e with
            | Some e =>
                mret (None, Some (ErrErrorf ("Unable to wake up MPU9250: '"
                                             ++ busErrorText e ++ "'")))
            | None =>
                e ← writeByte i2c (sensor m) x25 x22;         (* register 37 *)
                match e with
                | Some e =>
                    mret (None, Some (ErrErrorf ("Unable to enable passthrough: '"
                                                 ++ busErrorText e ++ "'")))
                | None =>
                    log (LogErrorf "enabled passthrough successfully");;
                    e ← writeByte i2c (sensor m) x26 x01;     (* register 38 *)
                    match e with
                    | Some e =>
                        mret (None, Some (ErrErrorf ("Unable to enable passthrough: '"
                                                     ++ busErrorText e ++ "'")))
                    | None =>
                        log (LogErrorf "enabled passthrough successfully 2");;
                        '(defaultMagAddress, _) ← readMagByte m magnetometerWhoAmI;
                        magCheck defaultMagAddress;;
                        '(g, a, e) ← getReadingScales i2c (sensor m);
                        set_scales g a;;
                        match e with
                        | Some e => mret (None, Some (ErrBus e))
                        | None =>
                            emit EvWorkersStart;;
                            mret (Some {| sensor := with_workers (sensor m) WorkersRunning;
                                          magAddress := magAddress m |}, None)
                        end
                    end
                end
            end
      end
  end.

End Magnetometer.
End pkg_mpu.

(* ===================================================================== *)
(** ** The local test program (cmdlocal) and the non-Linux build *)
(* ===================================================================== *)

Module cmdlocal.

(** What [realMain] does, in order. *)
Inductive step :=
  | CallAngularVelocity
  | CallLinearAcceleration
  | Infof (av : spatialmath.AngularVelocity) (la : r3.Vector)
  | SleepSecond.

(** The movement sensor as [realMain] sees it.  [St] is everything its
    answers depend on (the sensor, its goroutine, the bus); [elapse] is
    what one second of sleeping does to that. *)
Record MovementSensor (St E : Type) := {
  AngularVelocity : St -> spatialmath.AngularVelocity * option E * St;
  LinearAcceleration : St -> r3.Vector * option E * St;
  elapse : St -> St
}.
Arguments AngularVelocity {St E}.
Arguments LinearAcceleration {St E}.
Arguments elapse {St E}.

Section RealMain.
Context {St E : Type} (ms : MovementSensor St E).

(** [n] iterations of the [for range 30] loop; returns the error, if
    any, the final state and the steps taken. *)
Fixpoint rounds (n : nat) (st : St) : option E * St * list step :=
  match n with
  | O => (None, st, [])
  | S n' =>
      let '(av, e, st) := AngularVelocity ms st in
      match e with
      | Some e => (Some e, st, [CallAngularVelocity])
      | None =>
          let '(la, e, st) := LinearAcceleration ms st in
          match e with
          | Some e => (Some e, st, [CallAngularVelocity; CallLinearAcceleration])
          | None =>
              let '(e, st, steps) := rounds n' (elapse ms st) in
              (e, st, [CallAngularVelocity; CallLinearAcceleration; Infof av la; SleepSecond]
                      ++ steps)
          end
      end
  end.

(** [NewMpu6050(ctx, logger, "foo", "1", false)] is the constructor that
    the build provides. *)
Definition realMain (NewMpu6050 : string -> string -> bool -> St + E)
  : option E * list step :=
  match NewMpu6050 "foo" "1" false with
  | inr e => (Some e, [])
  | inl st => let '(e, _, steps) := rounds 30 st in (e, steps)
  end.

(** [main] panics when [realMain] returns an error. *)
Definition main_panics (NewMpu6050 : string -> string -> bool -> St + E) : bool :=
  match realMain NewMpu6050 with
  | (Some _, _) => true
  | (None, _) => false
  end.

End RealMain.

(** The steps of one complete iteration. *)
Definition is_round_end (s : step) : bool :=
  match s with SleepSecond => true | _ => false end.

Definition is_call (s : step) : bool :=
  match s with CallAngularVelocity | CallLinearAcceleration => true | _ => false end.

End cmdlocal.

Module mpu6050_nonlinux.

(** Both constructors of the build without Linux: [errors.New] with a
    fixed text, whatever the arguments. *)
Definition NewMpu6050 {St} (name busName : string) (useAlternateI2CAddress : bool)
  : St + string :=
  inr "mpu6050 only supported on linux"%string.

Definition newMpu6050 {St} (conf : resourceConfig) : St + string :=
  inr "mpu6050 only supported on linux"%string.

End mpu6050_nonlinux.

(* ===================================================================== *)
(** ** More scenarios on the simulated bus *)
(* ===================================================================== *)

Module Scenario2.

(** The chip answers, but the fifth transaction of the construction, the
    read of the magnetometer's who-am-I register, fails. *)
Definition busMagDown : SimBus.t :=
  {| SimBus.regs := [(117%N, x71)];
     SimBus.faults := [false; false; false; false; true];
     SimBus.later := false |}.

(** A sensor whose tracker answers nil and then an error, and changes
    nothing else: the accessors as the test program calls them. *)
Definition flaky : cmdlocal.MovementSensor nat string :=
  {| cmdlocal.AngularVelocity := fun n => (spatialmath.zero, None, n);
     cmdlocal.LinearAcceleration := fun n =>
       (r3.zero, if (n <? 3)%nat then None else Some "fault"%string, n);
     cmdlocal.elapse := S |}.

(** Scenario A before its ten ticks. *)
Definition sensorA0 : mpu9250 Window.t :=
  Eval vm_compute in Scenario.sensor_of (Scenario.run Scenario.busA 0).
Definition worldA0 : world SimBus.t :=
  Eval vm_compute in Scenario.world_of Scenario.busA (Scenario.run Scenario.busA 0).

(** The scale codes 2 and 3, after [getReadingScales]. *)
Definition worldCodes23 : world SimBus.t :=
  Eval vm_compute in
    Scenario.world_after
      (getReadingScales SimBus.i2c (newSensor (T:=Window.t) expectedDefaultAddress)
         (SimBus.world0 Scenario.busCodes23)).

(** The read of the accelerometer's scale register fails while another
    sensor's scales (codes 0 and 0) are in the package variables. *)
Definition busScaleFault : SimBus.t :=
  {| SimBus.regs := [(117%N, x71)];
     SimBus.faults := [false; false; false; true];
     SimBus.later := false |}.
Definition worldScaleFault0 : world SimBus.t :=
  {| bus := busScaleFault; logs := []; trace := [];
     accelScale := F64.of_ratio 2 32768; gyroScale := F64.of_ratio 250 32768 |}.
Definition worldScaleFault1 : world SimBus.t :=
  Eval vm_compute in
    Scenario.world_after (makeMpu9250 (T:=Window.t) SimBus.i2c Scenario.conf worldScaleFault0).

(** A bus that answers every block read with three bytes. *)
Definition shortI2C : I2C unit := {|
  OpenHandle := fun _ b => (None, b);
  ReadBlockData := fun _ _ _ b => (inl [x00; x01; x02], b);
  WriteByteData := fun _ _ _ b => (None, b);
  HandleClose := fun _ b => (None, b)
|}.
Definition shortWorld0 : world unit :=
  {| bus := tt; logs := []; trace := []; accelScale := F64.zero; gyroScale := F64.zero |}.
Definition shortWorld1 : world unit :=
  {| bus := tt; logs := [];
     trace := [EvOpenHandle x68; EvReadBlockData x3b 14; EvHandleClose];
     accelScale := F64.zero; gyroScale := F64.zero |}.

(** The worlds along the construction of package mpu on [busMagDown]. *)
Definition magSensor : mpu9250 Window.t := newSensor expectedDefaultAddress.
Definition magW0 : world SimBus.t := SimBus.world0 busMagDown.
Definition magW1 : world SimBus.t :=
  Eval vm_compute in
    Scenario.world_after
      (readByte SimBus.i2c magSensor x75
         (logged magW0 (LogDebugf "Using address 104 for MPU9250 sensor"))).
Definition magW2 : world SimBus.t :=
  Eval vm_compute in Scenario.world_after (writeByte SimBus.i2c magSensor x6b x00 magW1).
Definition magW3 : world SimBus.t :=
  Eval vm_compute in Scenario.world_after (writeByte SimBus.i2c magSensor x25 x22 magW2).
Definition magW4 : world SimBus.t :=
  Eval vm_compute in
    Scenario.world_after
      (writeByte SimBus.i2c magSensor x26 x01
         (logged magW3 (LogErrorf "enabled passthrough successfully"))).
Definition magW5 : world SimBus.t :=
  Eval vm_compute in
    Scenario.world_after
      (pkg_mpu.readMagByte SimBus.i2c
         {| pkg_mpu.sensor := magSensor; pkg_mpu.magAddress := x0c |} x00
         (logged magW4 (LogErrorf "enabled passthrough successfully 2"))).
Definition magW6 : world SimBus.t :=
  Eval vm_compute in
    Scenario.world_after
      (getReadingScales SimBus.i2c magSensor
         (logged magW5 (LogErrorf "mag address wrong. expected 72, got 0"))).

End Scenario2.
(* ===================================================================== *)
(** ** Properties of the windowed error tracker *)
(* ===================================================================== *)

Section WindowFacts.
Implicit Types (attempts outcomes : list (option error)) (le : Window.t).

Lemma Window_filter_replicate_None (n : nat) :
  filter is_Some (replicate n (@None error)) = [].
Proof.
  induction n as [|n IH]; [done|]. simpl.
  rewrite filter_cons_False; [exact IH|]. by intros [? ?].
Qed.

Lemma Window_set_errs_nonempty le e : Window.errs (Window.set le e) ≠ [].
Proof. simpl. by destruct (drop 1 (Window.errs le)). Qed.

(** Recording a sequence of attempts keeps the tail of the old window
    followed by the attempts. *)
Lemma Window_errs_foldl attempts : ∀ le,
  Window.errs le ≠ [] →
  Window.errs (foldl Window.set le attempts)
  = drop (length attempts) (Window.errs le ++ attempts).
Proof.
  induction attempts as [|a attempts IH]; intros le Hne; simpl.
  - by rewrite app_nil_r, drop_0.
  - rewrite IH by apply Window_set_errs_nonempty. simpl.
    destruct (Window.errs le) as [|x xs]; [done|]. simpl.
    rewrite drop_0. by rewrite <- app_assoc.
Qed.

Lemma Window_threshold_foldl attempts : ∀ le,
  Window.threshold (foldl Window.set le attempts) = Window.threshold le.
Proof.
  induction attempts as [|a attempts IH]; intros le; simpl; [done|].
  by rewrite IH.
Qed.

(** The failures the tracker sees after a run are those of the last ten
    attempts: the initial empty slots never count. *)
Lemma Window_filter_recent attempts :
  filter is_Some (Window.errs (foldl Window.set (Window.new 10 5) attempts))
  = filter is_Some (Window.recent 10 attempts).
Proof.
  rewrite Window_errs_foldl by done.
  unfold Window.recent.
  change (Window.errs (Window.new 10 5)) with (replicate 10 (@None error)).
  destruct (decide (length attempts ≤ 10)%nat) as [Hle|Hgt].
  - rewrite drop_app_le by (rewrite length_replicate; lia).
    rewrite drop_replicate, filter_app, Window_filter_replicate_None.
    replace (length attempts - 10)%nat with 0%nat by lia. by rewrite drop_0.
  - rewrite drop_app_ge by (rewrite length_replicate; lia).
    by rewrite length_replicate.
Qed.

Lemma Window_length_omap outcomes :
  length (omap id outcomes) = length (filter is_Some outcomes).
Proof.
  induction outcomes as [|[e|] l IH]; [done| |].
  - rewrite filter_cons_True by eauto. simpl. f_equal. exact IH.
  - rewrite filter_cons_False by (by intros [? ?]). exact IH.
Qed.

Lemma Window_latest_is_Some outcomes :
  0 < Window.failures outcomes ↔ is_Some (Window.latest outcomes).
Proof.
  unfold Window.failures, Window.latest.
  rewrite <- Window_length_omap, last_is_Some.
  destruct (omap id outcomes); simpl; split; (done || lia).
Qed.

Lemma Window_omap_filter outcomes :
  omap id (filter is_Some outcomes) = omap id outcomes.
Proof.
  induction outcomes as [|[e|] l IH]; [done| |].
  - rewrite filter_cons_True by eauto. simpl. f_equal. exact IH.
  - rewrite filter_cons_False by (by intros [? ?]). exact IH.
Qed.

(** After any run from a fresh tracker, the verdict is a function of the
    last ten attempts. *)
Lemma Window_get_recent attempts :
  (Window.get (foldl Window.set (Window.new 10 5) attempts)).1
  = if 5 <=? Window.failures (Window.recent 10 attempts)
    then Window.latest (Window.recent 10 attempts) else None.
Proof.
  unfold Window.get, Window.faulted. simpl.
  rewrite Window_threshold_foldl. simpl.
  unfold Window.failures, Window.latest.
  rewrite <- (Window_omap_filter (Window.errs _)), Window_filter_recent.
  by rewrite Window_omap_filter.
Qed.

(** The verdict is a fault exactly when five of the last ten attempts
    failed. *)
Lemma Window_verdict_iff attempts :
  is_Some (Window.get (foldl Window.set (Window.new 10 5) attempts)).1
  ↔ 5 ≤ Window.failures (Window.recent 10 attempts).
Proof.
  rewrite Window_get_recent.
  destruct (Z.leb_spec 5 (Window.failures (Window.recent 10 attempts))) as [H|H].
  - split; [done|]. intros _. apply Window_latest_is_Some. lia.
  - split; [by intros [? ?]|lia].
Qed.

End WindowFacts.

(** C3: from a fresh [NewLastError(10, 5)], after any sequence of recorded
    attempts the tracker reports a fault exactly when at least 5 of the 10
    most recent attempts failed; the verdict does not depend on the order
    of the outcomes inside that window; with exactly 4 failures among the
    last 10 it reports no fault. *)
Theorem LastError_faulted_iff_5_of_last_10 (attempts : list (option error)) :
  let verdict l := (LastError_Get (foldl LastError_Set (NewLastError 10 5) l)).1 in
  (is_Some (verdict attempts) ↔ 5 ≤ Window.failures (Window.recent 10 attempts))
  ∧ (∀ attempts', Window.recent 10 attempts' ≡ₚ Window.recent 10 attempts →
       (is_Some (verdict attempts') ↔ is_Some (verdict attempts)))
  ∧ (Window.failures (Window.recent 10 attempts) = 4 → verdict attempts = None).
Proof.
  intros verdict.
  assert (Hv : ∀ l, verdict l
                    = if 5 <=? Window.failures (Window.recent 10 l)
                      then Window.latest (Window.recent 10 l) else None)
    by (intros l; apply Window_get_recent).
  assert (Hiff : ∀ l, is_Some (verdict l) ↔ 5 ≤ Window.failures (Window.recent 10 l))
    by (intros l; apply Window_verdict_iff).
  clearbody verdict.
  split; [apply Hiff|]. split.
  - intros attempts' Hperm. rewrite !Hiff. unfold Window.failures.
    by rewrite Hperm.
  - intros H4. rewrite Hv.
    destruct (Z.leb_spec 5 (Window.failures (Window.recent 10 attempts))); [lia|done].
Qed.

(* ===================================================================== *)
(** ** The 16-bit decoder *)
(* ===================================================================== *)

Lemma byte_val_range (b : byte) : 0 ≤ byte_val b < 256.
Proof.
  unfold byte_val. pose proof (Byte.to_N_bounded b). lia.
Qed.

(** The high byte shifted by 8 shares no bit with the low byte, so the
    [lor] is a sum. *)
Lemma be_lor_add (hi lo : Z) :
  0 ≤ hi → 0 ≤ lo < 256 → Z.lor (Z.shiftl hi 8) lo = hi * 256 + lo.
Proof.
  intros Hhi Hlo.
  assert (Hland : Z.land (Z.shiftl hi 8) lo = 0).
  { apply Z.bits_inj'. intros n Hn.
    rewrite Z.land_spec, Z.bits_0.
    destruct (Z.ltb_spec n 8) as [Hlt|Hge].
    - by rewrite Z.shiftl_spec_low.
    - destruct (decide (lo = 0)) as [->|Hne];
        [by rewrite Z.bits_0, andb_false_r|].
      rewrite (Z.bits_above_log2 lo n), andb_false_r; [done|lia|].
      assert (Z.log2 lo < 8) by (apply Z.log2_lt_pow2; lia). lia. }
  rewrite <- Z.lxor_lor, <- Z.add_nocarry_lxor by done.
  rewrite Z.shiftl_mul_pow2 by lia. lia.
Qed.

Lemma int16BE_range (hi lo : byte) : -32768 ≤ int16BE hi lo ≤ 32767.
Proof.
  unfold int16BE.
  pose proof (byte_val_range hi). pose proof (byte_val_range lo).
  rewrite be_lor_add by lia.
  destruct (Z.ltb_spec (byte_val hi * 256 + byte_val lo) 32768); lia.
Qed.

(** Decoding undoes the two's-complement encoding of a 16-bit value. *)
Lemma int16BE_unsigned (hi lo : byte) :
  int16BE hi lo mod 65536 = byte_val hi * 256 + byte_val lo.
Proof.
  unfold int16BE.
  pose proof (byte_val_range hi). pose proof (byte_val_range lo).
  rewrite be_lor_add by lia.
  destruct (Z.ltb_spec (byte_val hi * 256 + byte_val lo) 32768).
  - apply Z.mod_small. lia.
  - symmetry. apply (Z.mod_unique _ _ (-1)); lia.
Qed.

Lemma Int16FromBytesBE_range (data : list byte) (d : Z) :
  Int16FromBytesBE data = Some d → -32768 ≤ d ≤ 32767.
Proof.
  destruct data as [|hi [|lo rest]]; simpl; try done.
  intros [= <-]. apply int16BE_range.
Qed.

(* ===================================================================== *)
(** ** The scale tables *)
(* ===================================================================== *)

(** The eight scale constants are exact: each is a multiple of 2^-15. *)
Lemma scale_constants_exact :
  Forall (λ n, ∃ q, F64.to_Q (F64.of_ratio n 32768) = Some q ∧ (q == n # 32768)%Q)
         [250; 500; 1000; 2000; 2; 4; 8; 16].
Proof.
  repeat apply Forall_cons_2; [..|apply Forall_nil_2];
    eexists; (split; [vm_compute; reflexivity|reflexivity]).
Qed.

(** C1 (the code departs from the claim): with the gyroscope register
    holding code 2 and the accelerometer register holding code 3,
    [getReadingScales] returns both scales at zero instead of 1000/32768
    and 16/32768; codes 0 and 1 select the documented factors, and the
    factors for codes 2 and 3 are selected by the register values ten and
    eleven. *)
Theorem getReadingScales_codes_2_3 :
  (∃ w, getReadingScales SimBus.i2c (newSensor (T:=Window.t) expectedDefaultAddress)
          (SimBus.world0 Scenario.busCodes23)
        = Done (F64.zero, F64.zero, None) w)
  ∧ gyroScaleOf x02 = F64.zero ∧ gyroScaleOf x03 = F64.zero
  ∧ accelScaleOf x02 = F64.zero ∧ accelScaleOf x03 = F64.zero
  ∧ F64.zero ≠ F64.of_ratio 1000 32768 ∧ F64.zero ≠ F64.of_ratio 16 32768
  ∧ gyroScaleOf x00 = F64.of_ratio 250 32768 ∧ gyroScaleOf x01 = F64.of_ratio 500 32768
  ∧ accelScaleOf x00 = F64.of_ratio 2 32768 ∧ accelScaleOf x01 = F64.of_ratio 4 32768
  ∧ (∀ b, gyroScaleOf b = F64.of_ratio 1000 32768 ↔ b = x0a)
  ∧ (∀ b, gyroScaleOf b = F64.of_ratio 2000 32768 ↔ b = x0b)
  ∧ (∀ b, accelScaleOf b = F64.of_ratio 8 32768 ↔ b = x0a)
  ∧ (∀ b, accelScaleOf b = F64.of_ratio 16 32768 ↔ b = x0b).
Proof.
  split; [eexists; vm_compute; reflexivity|].
  repeat (split; [vm_compute; (reflexivity || discriminate)|]).
  repeat split; try (intros ->; vm_compute; reflexivity);
    destruct b; vm_compute; (reflexivity || discriminate).
Qed.

(* ===================================================================== *)
(** ** Running the driver *)
(* ===================================================================== *)

Section Running.
Context {B : Type} (i2c : I2C B) {T : Type} `{!LastError T}.
Implicit Types (w : world B) (s mpu : mpu9250 T).

Lemma bind_Done {A A'} (m : M B A) (f : A → M B A') w a w' :
  m w = Done a w' → (m ≫= f) w = f a w'.
Proof. intros H. unfold mbind, M_bind. by rewrite H. Qed.

Lemma emits_emits w es es' : emits (emits w es) es' = emits w (es ++ es').
Proof. unfold emits. simpl. by rewrite <- app_assoc. Qed.

(** A successful burst read of at least 14 bytes: the tick records the
    success, decodes the three groups with the scales of the package
    variables, and publishes them between [Lock] and [Unlock]. *)
Lemma pollTick_success s w w1 b0 b1 b2 b3 b4 b5 b6 b7 b8 b9 b10 b11 b12 b13 rest :
  readBlock i2c s x3b 14 w
  = Done (inl (b0 :: b1 :: b2 :: b3 :: b4 :: b5 :: b6 :: b7
               :: b8 :: b9 :: b10 :: b11 :: b12 :: b13 :: rest)) w1 →
  pollTick i2c s w
  = Done (with_sample (with_err s (LastError_Set (err s) None))
            (r3.mkVector
               (F64.mul (setScale (int16BE b0 b1) (accelScale w1)) c_9_81)
               (F64.mul (setScale (int16BE b2 b3) (accelScale w1)) c_9_81)
               (F64.mul (setScale (int16BE b4 b5) (accelScale w1)) c_9_81))
            (toTemperature (int16BE b6 b7))
            (spatialmath.mkAngularVelocity
               (setScale (int16BE b8 b9) (gyroScale w1))
               (setScale (int16BE b10 b11) (gyroScale w1))
               (setScale (int16BE b12 b13) (gyroScale w1))))
         (emits w1 [EvLock; EvUnlock]).
Proof.
  intros Hread. unfold pollTick.
  rewrite (bind_Done _ _ _ _ _ Hread).
  change [EvLock; EvUnlock] with ([EvLock] ++ [EvUnlock]).
  rewrite <- emits_emits. reflexivity.
Qed.

(** A failed burst read: the tick records the failure, logs it, and
    touches nothing else. *)
Lemma pollTick_failure s w w1 e :
  readBlock i2c s x3b 14 w = Done (inr e) w1 →
  pollTick i2c s w
  = Done (with_err s (LastError_Set (err s) (Some (ErrBus e))))
         (logged w1 (LogErrorf ("error reading MPU9250 sensor: '"
                                ++ busErrorText e ++ "'"))).
Proof.
  intros Hread. unfold pollTick.
  by rewrite (bind_Done _ _ _ _ _ Hread).
Qed.

(** A block read leaves the logger's earlier entries, the earlier events
    and the two scale variables as they were. *)
Lemma readBlock_scales s register length w r w1 :
  readBlock i2c s register length w = Done r w1 →
  accelScale w1 = accelScale w ∧ gyroScale w1 = gyroScale w.
Proof.
  unfold readBlock, closeHandle, on_bus, log, mbind, M_bind, mret, M_ret.
  destruct (OpenHandle i2c (i2cAddress s) (bus w)) as [[e|] b1]; simpl.
  - by intros [= <- <-].
  - destruct (ReadBlockData i2c _ _ _ b1) as [res b2]; simpl.
    destruct (HandleClose i2c _ b2) as [[e|] b3]; simpl; by intros [= <- <-].
Qed.

(** What [writeByte] does on the bus: it opens a handle, and when that
    works it writes the byte and closes the handle. *)
Lemma writeByte_trace s register value w r w1 :
  writeByte i2c s register value w = Done r w1 →
  ∃ busEvents,
    trace w1 = trace w ++ busEvents
    ∧ (busEvents = [EvOpenHandle (i2cAddress s)]
       ∨ busEvents = [EvOpenHandle (i2cAddress s); EvWriteByteData register value;
                      EvHandleClose]).
Proof.
  unfold writeByte, closeHandle, on_bus, log, mbind, M_bind, mret, M_ret.
  destruct (OpenHandle i2c (i2cAddress s) (bus w)) as [[e|] b1]; simpl.
  - intros [= <- <-]. eexists. split; [done|by left].
  - destruct (WriteByteData i2c _ _ _ b1) as [res b2]; simpl.
    destruct (HandleClose i2c _ b2) as [[e|] b3]; simpl;
      intros [= <- <-]; eexists; (split; [|by right]); simpl;
      by rewrite <- !app_assoc.
Qed.

(** C4 (as amended): the temperature published by a successful tick is
    [decoded/333.87 + 21.0] in binary64 arithmetic, where [decoded] is
    the big-endian signed 16-bit value of bytes 6 and 7 of the burst and
    therefore lies in -32768..32767.  Raw value 0 gives exactly 21.0.
    The bit pattern of 33387 (bytes 0x82 0x6B) decodes to -32149 and
    gives about -75.29; the formula would give 121.0 at 33387, which no
    two bytes decode to. *)
Theorem temperature_conversion s w w1 rawData :
  readBlock i2c s x3b 14 w = Done (inl rawData) w1 →
  (14 ≤ length rawData)%nat →
  (∃ hi lo s' w',
      rawData !! 6%nat = Some hi ∧ rawData !! 7%nat = Some lo
      ∧ pollTick i2c s w = Done s' w'
      ∧ temperature s'
        = F64.add (F64.div (F64.of_int (int16BE hi lo)) (F64.of_ratio 33387 100))
                  (F64.of_int 21)
      ∧ -32768 ≤ int16BE hi lo ≤ 32767
      ∧ int16BE hi lo mod 65536 = byte_val hi * 256 + byte_val lo)
  ∧ int16BE x00 x00 = 0
  ∧ toTemperature 0 = F64.of_int 21
  ∧ int16BE x82 x6b = 33387 - 65536
  ∧ F64.within (toTemperature (int16BE x82 x6b)) (-7529 # 100) (1 # 100) = true
  ∧ F64.within (toTemperature 33387) 121 (1 # 1000000000000) = true
  ∧ F64.within (F64.of_ratio 33387 100) (33387 # 100) (1 # 10000000000000) = true.
Proof.
  intros Hread Hlen.
  do 14 (destruct rawData as [|? rawData]; [simpl in Hlen; lia|]).
  split; [|by vm_compute].
  do 4 eexists.
  split; [reflexivity|]. split; [reflexivity|].
  split; [apply (pollTick_success _ _ _ _ _ _ _ _ _ _ _ _ _ _ _ _ _ _ Hread)|].
  split; [reflexivity|].
  split; [apply int16BE_range|apply int16BE_unsigned].
Qed.

(** C9: with the scales of codes (0, 0) in place, a successful burst
    read carrying accelerometer (0, 0, 16384), temperature 0 and
    gyroscope (0, 0, 0) publishes a linear acceleration of
    (0, 0, 16384 * (2.0/32768) * 9.81), which is the float 9.81, an
    angular velocity of (0, 0, 0) and a temperature of 21.0; and for any
    six bytes each acceleration axis is [decoded * accelScale * 9.81]. *)
Theorem scenario_B_sample s w w1 rest :
  accelScale w = accelScaleOf x00 →
  gyroScale w = gyroScaleOf x00 →
  readBlock i2c s x3b 14 w
  = Done (inl ([x00; x00; x00; x00; x40; x00] ++ [x00; x00]
               ++ [x00; x00; x00; x00; x00; x00] ++ rest)) w1 →
  (∃ s' w',
      pollTick i2c s w = Done s' w'
      ∧ linearAcceleration s'
        = r3.mkVector F64.zero F64.zero
            (F64.mul (F64.mul (F64.of_int 16384) (F64.of_ratio 2 32768))
                     (F64.of_ratio 981 100))
      ∧ r3.Z (linearAcceleration s') = F64.of_ratio 981 100
      ∧ angularVelocity s' = spatialmath.zero
      ∧ temperature s' = F64.of_int 21)
  ∧ int16BE x40 x00 = 16384
  ∧ F64.within (F64.of_ratio 981 100) (981 # 100) (1 # 1000000000000000) = true
  ∧ (∀ x0 x1 y0 y1 z0 z1 w0,
       toLinearAcceleration [x0; x1; y0; y1; z0; z1] w0
       = Done (r3.mkVector
                 (F64.mul (F64.mul (F64.of_int (int16BE x0 x1)) (accelScale w0))
                          (F64.of_ratio 981 100))
                 (F64.mul (F64.mul (F64.of_int (int16BE y0 y1)) (accelScale w0))
                          (F64.of_ratio 981 100))
                 (F64.mul (F64.mul (F64.of_int (int16BE z0 z1)) (accelScale w0))
                          (F64.of_ratio 981 100)))
              w0).
Proof.
  intros Ha Hg Hread.
  destruct (readBlock_scales _ _ _ _ _ _ Hread) as [Ha1 Hg1].
  split; [|split; [done|split; [by vm_compute|done]]].
  eexists _, _.
  split; [apply (pollTick_success _ _ _ _ _ _ _ _ _ _ _ _ _ _ _ _ _ _ Hread)|].
  simpl. rewrite Ha1, Hg1, Ha, Hg.
  by vm_compute.
Qed.

(** C7: when the 14-byte burst read fails, the tick returns with the
    three published values unchanged, the failure recorded in the
    tracker and logged, no decoding and no locking done, and the loop
    goes on with the next event. *)
Theorem pollTick_failed_read_keeps_snapshot s w w1 e :
  readBlock i2c s x3b 14 w = Done (inr e) w1 →
  ∃ s' w',
    pollTick i2c s w = Done s' w'
    ∧ angularVelocity s' = angularVelocity s
    ∧ linearAcceleration s' = linearAcceleration s
    ∧ temperature s' = temperature s
    ∧ err s' = LastError_Set (err s) (Some (ErrBus e))
    ∧ workers s' = workers s
    ∧ trace w' = trace w1
    ∧ logs w' = logs w1 ++ [LogErrorf ("error reading MPU9250 sensor: '"
                                       ++ busErrorText e ++ "'")]
    ∧ accelScale w' = accelScale w ∧ gyroScale w' = gyroScale w
    ∧ ∀ rest, pollLoop i2c (TimerTick :: rest) s w = pollLoop i2c rest s' w'.
Proof.
  intros Hread.
  destruct (readBlock_scales _ _ _ _ _ _ Hread) as [Ha Hg].
  pose proof (pollTick_failure _ _ _ _ Hread) as Htick.
  eexists _, _. split; [exact Htick|].
  repeat (split; [done|]).
  intros rest. simpl. by rewrite (bind_Done _ _ _ _ _ Htick).
Qed.

End Running.

(** C4 (the claim as stated fails): the two bytes that hold the raw value
    33387 do not yield 121.0 degrees, not even within a thousandth. *)
Lemma temperature_raw_33387_not_121 :
  ¬ (∀ hi lo, byte_val hi * 256 + byte_val lo = 33387 →
              F64.within (toTemperature (int16BE hi lo)) 121 (1 # 1000) = true).
Proof.
  intros H. specialize (H x82 x6b eq_refl). vm_compute in H. discriminate.
Qed.

(* ===================================================================== *)
(** ** Construction, accessors and shutdown *)
(* ===================================================================== *)

Section Facade.
Context {B : Type} (i2c : I2C B) {T : Type} `{!LastError T}.
Implicit Types (w : world B) (s mpu : mpu9250 T).

(** When the read of the identity register itself fails, construction
    fails with the bus error wrapped by [addressReadError]. *)
Lemma makeMpu9250_identity_read_error conf newConf w e w1 :
  NativeConfig conf = inl newConf →
  let address :=
    if UseAlternateI2CAddress newConf then alternateAddress else expectedDefaultAddress in
  readByte i2c (newSensor (T:=T) address) defaultAddressRegister
    (logged w (LogDebugf ("Using address " ++ fmt_d address ++ " for MPU9250 sensor")))
  = Done (inr e) w1 →
  makeMpu9250 (T:=T) i2c conf w
  = Done (None, Some (addressReadError (ErrBus e) address (I2cBus newConf))) w1.
Proof.
  intros Hconf address Hread. unfold makeMpu9250. rewrite Hconf.
  fold address. unfold log at 1.
  unfold mbind at 1, M_bind at 1.
  by rewrite (bind_Done _ _ _ _ _ Hread).
Qed.

(** C5: when the read of register 117 succeeds with a byte other than
    0x71, construction returns no sensor and the error
    [unexpectedDeviceError address byte]; that error is not a wrapped
    transport error: it differs from every [addressReadError], in
    structure and in message. *)
Theorem makeMpu9250_identity_mismatch conf newConf w b w1 :
  NativeConfig conf = inl newConf →
  let address :=
    if UseAlternateI2CAddress newConf then alternateAddress else expectedDefaultAddress in
  readByte i2c (newSensor (T:=T) address) defaultAddressRegister
    (logged w (LogDebugf ("Using address " ++ fmt_d address ++ " for MPU9250 sensor")))
  = Done (inl b) w1 →
  b ≠ expectedConfigurationReadAddress →
  makeMpu9250 (T:=T) i2c conf w = Done (None, Some (unexpectedDeviceError address b)) w1
  ∧ is_transport (unexpectedDeviceError address b) = false
  ∧ (∀ cause bus, is_transport cause = true →
       is_transport (addressReadError cause address bus) = true)
  ∧ (∀ cause a bus, unexpectedDeviceError address b ≠ addressReadError cause a bus)
  ∧ (∀ sentinel cause a bus,
       errorText sentinel (unexpectedDeviceError address b)
       ≠ errorText sentinel (addressReadError cause a bus))
  ∧ byte_val defaultAddressRegister = 117
  ∧ byte_val expectedConfigurationReadAddress = 113.
Proof.
  intros Hconf address Hread Hne. split.
  - unfold makeMpu9250. rewrite Hconf. fold address. unfold log at 1.
    unfold mbind at 1, M_bind at 1.
    rewrite (bind_Done _ _ _ _ _ Hread).
    destruct (Byte.eqb b expectedConfigurationReadAddress) eqn:Heq; [|done].
    by apply Byte.byte_dec_bl in Heq.
  - repeat split; try done.
Qed.

(** C2: in a state where the tracker reports a fault, [LinearAcceleration]
    returns the zero vector with the tracker's error and [AngularVelocity]
    returns the cached angular velocity with the same error; a freshly
    built sensor caches the zero angular velocity. *)
Theorem faulted_accessors s w e t :
  LastError_Get (err s) = (Some e, t) →
  LinearAcceleration s w
  = Done (r3.zero, Some e, with_err s t) (emits w [EvLock; EvUnlock])
  ∧ AngularVelocity s w
    = Done (angularVelocity s, Some e, with_err s t) (emits w [EvLock; EvUnlock])
  ∧ (∀ address, angularVelocity (newSensor (T:=T) address) = spatialmath.zero).
Proof.
  intros Hget. unfold LinearAcceleration, AngularVelocity.
  unfold mbind, M_bind, emit, mret, M_ret. rewrite Hget. simpl.
  by rewrite !emits_emits.
Qed.

(** C10: [Readings] returns, between [Lock] and [Unlock], a map with
    exactly the keys "linear_acceleration", "temperature_celsius" and
    "angular_velocity", holding the three published values, together
    with the verdict of the tracker. *)
Theorem Readings_three_keys s w :
  ∃ readings,
    Readings s w
    = Done (readings, (LastError_Get (err s)).1, with_err s (LastError_Get (err s)).2)
           (emits w [EvLock; EvUnlock])
    ∧ dom readings = {["linear_acceleration"; "temperature_celsius"; "angular_velocity"]}
    ∧ readings !! "linear_acceleration" = Some (RVector (linearAcceleration s))
    ∧ readings !! "temperature_celsius" = Some (RFloat (temperature s))
    ∧ readings !! "angular_velocity" = Some (RAngularVelocity (angularVelocity s)).
Proof.
  eexists. split.
  - unfold Readings, mbind, M_bind, emit, mret, M_ret.
    destruct (LastError_Get (err s)) as [e t]. simpl.
    by rewrite emits_emits.
  - split; [|by simplify_map_eq].
    rewrite !dom_insert_L, dom_empty_L. set_solver.
Qed.

(** C8 (as amended): [LinearVelocity], [Orientation], [CompassHeading]
    and [Position] return, in every state and without touching the
    sensor, the tracker or the world, their own fixed unimplemented
    error, which is not a transport error; the sensor declares no
    [Temperature] method. *)
Theorem unimplemented_methods s w :
  LinearVelocity s w = Done (r3.zero, Some ErrMethodUnimplementedLinearVelocity, s) w
  ∧ Orientation s w
    = Done (spatialmath.NewOrientationVector, Some ErrMethodUnimplementedOrientation, s) w
  ∧ CompassHeading s w = Done (F64.zero, Some ErrMethodUnimplementedCompassHeading, s) w
  ∧ Position s w
    = Done (geo.NewPoint F64.zero F64.zero, F64.zero,
            Some ErrMethodUnimplementedPosition, s) w
  ∧ Forall (λ name, ∃ f e,
              method (T:=T) i2c name = Some f
              ∧ is_unimplemented e = true ∧ is_transport e = false
              ∧ ∀ s' w', f s' w' = Done (Some e, s') w')
           ["LinearVelocity"; "Orientation"; "CompassHeading"; "Position"]
  ∧ method (T:=T) i2c "Temperature" = None.
Proof.
  repeat (split; [reflexivity|]). split; [|reflexivity].
  repeat apply Forall_cons_2; [..|apply Forall_nil_2].
  - by exists (λ mpu, err_only (LinearVelocity mpu)), ErrMethodUnimplementedLinearVelocity.
  - by exists (λ mpu, err_only (Orientation mpu)), ErrMethodUnimplementedOrientation.
  - by exists (λ mpu, err_only (CompassHeading mpu)), ErrMethodUnimplementedCompassHeading.
  - by eexists _, ErrMethodUnimplementedPosition.
Qed.

(** C6 (as amended): [Close] on a started sensor stops the worker first,
    then, holding the lock, calls [writeByte(107, 1<<6)]; what that call
    returns is what [Close] returns, so [Close] returns nil exactly when
    the write succeeds; a failure is logged as well. *)
Theorem Close_returns_write_result s w r w1 :
  workers s ≠ WorkersNil →
  writeByte i2c (with_workers s WorkersStopped) x6b x40 (emits w [EvWorkersStop; EvLock])
  = Done r w1 →
  ∃ w' busEvents,
    Close i2c s w = Done (ErrBus <$> r, with_workers s WorkersStopped) w'
    ∧ (ErrBus <$> r = None ↔ r = None)
    ∧ logs w' = logs w1 ++ match r with Some e => [LogError (ErrBus e)] | None => [] end
    ∧ trace w' = trace w ++ [EvWorkersStop; EvLock] ++ busEvents ++ [EvUnlock]
    ∧ (busEvents = [EvOpenHandle (i2cAddress s)]
       ∨ busEvents = [EvOpenHandle (i2cAddress s); EvWriteByteData x6b x40; EvHandleClose])
    ∧ byte_val x6b = 107 ∧ byte_val x40 = Z.shiftl 1 6.
Proof.
  intros Hworkers Hwrite.
  destruct (writeByte_trace _ _ _ _ _ _ _ Hwrite) as (busEvents & Htrace & Hshape).
  simpl in Htrace, Hshape.
  assert (Hclose : Close i2c s w
                   = (emit EvWorkersStop ≫= λ _, emit EvLock ≫= λ _,
                      writeByte i2c (with_workers s WorkersStopped) x6b x40 ≫= λ e,
                      match e with
                      | Some e => log (LogError (ErrBus e)) ≫= λ _, emit EvUnlock ≫= λ _,
                                  mret (Some (ErrBus e), with_workers s WorkersStopped)
                      | None => emit EvUnlock ≫= λ _,
                                mret (None, with_workers s WorkersStopped)
                      end) w).
  { unfold Close. by destruct (workers s). }
  rewrite Hclose. unfold mbind at 1 2, M_bind at 1 2, emit at 1 2.
  rewrite emits_emits. simpl app.
  rewrite (bind_Done _ _ _ _ _ Hwrite).
  destruct r as [e|]; eexists _, busEvents;
    (split; [reflexivity|]); simpl; rewrite Htrace, <- !app_assoc;
    repeat split; try done; by rewrite app_nil_r.
Qed.

End Facade.

(** C6 (the claim as stated fails): on a bus whose transactions fail,
    [Close] on a started sensor does not return nil. *)
Lemma Close_propagates_write_failure :
  ¬ (∀ (s : mpu9250 Window.t) (w : world SimBus.t),
       workers s = WorkersRunning →
       ∃ s' w', Close SimBus.i2c s w = Done (None, s') w').
Proof.
  intros H.
  destruct (H Scenario.sensorA Scenario.worldA eq_refl) as (s' & w' & Hclose).
  vm_compute in Hclose. discriminate.
Qed.

(** C8 (the claim as stated fails): there is no [Temperature] method among
    the methods of the sensor, so not each of the four named methods
    returns an unimplemented error. *)
Lemma no_Temperature_method :
  ¬ Forall (λ name, ∃ f,
              method (T:=Window.t) SimBus.i2c name = Some f
              ∧ ∀ s w, ∃ e, f s w = Done (Some e, s) w ∧ is_unimplemented e = true)
           ["Temperature"; "Orientation"; "CompassHeading"; "Position"].
Proof.
  intros H. apply Forall_cons_1 in H as [(f & Hf & _) _].
  vm_compute in Hf. discriminate.
Qed.

(* ===================================================================== *)
(** ** One outcome per tick *)
(* ===================================================================== *)

Section Recording.
Context {B : Type} (i2c : I2C B) {T : Type} `{!LastError T}.
Implicit Types (w : world B) (s : mpu9250 T).

Lemma bind_inv {A A'} (m : M B A) (f : A → M B A') w b w' :
  (m ≫= f) w = Done b w' → ∃ a w1, m w = Done a w1 ∧ f a w1 = Done b w'.
Proof.
  unfold mbind, M_bind. destruct (m w) as [a w1|w1]; [eauto|done].
Qed.

(** A tick that returns has recorded exactly one outcome: nil, or the
    bus error of the burst read. *)
Lemma pollTick_records s w s' w' :
  pollTick i2c s w = Done s' w' →
  ∃ o, err s' = LastError_Set (err s) o ∧ (o = None ∨ ∃ e, o = Some (ErrBus e)).
Proof.
  unfold pollTick. intros H.
  apply bind_inv in H as ([rawData|e] & w1 & _ & H).
  - exists None. split; [|by left].
    repeat (apply bind_inv in H as (? & ? & _ & H)).
    unfold mret, M_ret in H. by injection H as <- _.
  - exists (Some (ErrBus e)). split; [|by right; eexists].
    apply bind_inv in H as (? & ? & _ & H).
    unfold mret, M_ret in H. by injection H as <- _.
Qed.

(** The goroutine records one outcome per tick it serves, in order. *)
Lemma pollLoop_records events : ∀ s w s' w',
  pollLoop i2c events s w = Done s' w' →
  ∃ outcomes,
    length outcomes = ticks events
    ∧ err s' = foldl LastError_Set (err s) outcomes
    ∧ Forall (λ o, o = None ∨ ∃ e, o = Some (ErrBus e)) outcomes.
Proof.
  induction events as [|[|] rest IH]; intros s w s' w' H; simpl in H.
  - injection H as <- _. by exists [].
  - apply bind_inv in H as (s1 & w1 & Htick & H).
    apply pollTick_records in Htick as (o & Ho & Hshape).
    apply IH in H as (outcomes & Hlen & Herr & Hall).
    exists (o :: outcomes). simpl. rewrite Hlen, Herr, Ho.
    split; [done|]. split; [done|]. by constructor.
  - injection H as <- _. by exists [].
Qed.

End Recording.

(** With the tracker as the specification describes it, the verdict after
    the goroutine has run is a fault exactly when at least five of the
    last ten burst reads failed. *)
Lemma pollLoop_verdict {B} (i2c : I2C B) events address (w : world B) s' w' :
  pollLoop i2c events (with_workers (newSensor (T:=Window.t) address) WorkersRunning) w
  = Done s' w' →
  ∃ outcomes,
    length outcomes = ticks events
    ∧ (is_Some (LastError_Get (err s')).1
       ↔ 5 ≤ Window.failures (Window.recent 10 outcomes)).
Proof.
  intros H. apply pollLoop_records in H as (outcomes & Hlen & Herr & _).
  exists outcomes. split; [done|]. rewrite Herr. apply Window_verdict_iff.
Qed.

(* ===================================================================== *)
(** ** The scenarios, run *)
(* ===================================================================== *)

Example scenario_A_runs : Scenario.run Scenario.busA 10 = Some (Scenario.sensorA, Scenario.worldA).
Proof. vm_compute. reflexivity. Qed.

Example scenario_B_constructs :
  Scenario.run Scenario.busB 0 = Some (Scenario.sensorB0, Scenario.worldB0).
Proof. vm_compute. reflexivity. Qed.

Example scenario_B_runs : Scenario.run Scenario.busB 1 = Some (Scenario.sensorB, Scenario.worldB).
Proof. vm_compute. reflexivity. Qed.

Example scenario_late_fault_runs :
  Scenario.run Scenario.busLateFault 3 = Some (Scenario.sensorLate, Scenario.worldLate).
Proof. vm_compute. reflexivity. Qed.

(** Scenario A through the accessors: ten failed polls after construction
    leave a faulted tracker. *)
Lemma faulted_accessors_witness :
  LastError_Get (err Scenario.sensorA)
  = (Some (ErrBus Scenario.ioError), err Scenario.sensorA)
  ∧ LinearAcceleration Scenario.sensorA Scenario.worldA
    = Done (r3.zero, Some (ErrBus Scenario.ioError), Scenario.sensorA)
           (emits Scenario.worldA [EvLock; EvUnlock])
  ∧ AngularVelocity Scenario.sensorA Scenario.worldA
    = Done (spatialmath.zero, Some (ErrBus Scenario.ioError), Scenario.sensorA)
           (emits Scenario.worldA [EvLock; EvUnlock]).
Proof.
  assert (Hget : LastError_Get (err Scenario.sensorA)
                 = (Some (ErrBus Scenario.ioError), err Scenario.sensorA))
    by (vm_compute; reflexivity).
  split; [exact Hget|].
  destruct (faulted_accessors Scenario.sensorA Scenario.worldA _ _ Hget) as (Hla & Hav & _).
  split; [exact Hla|exact Hav].
Defined.

(** Scenario B: the temperature bytes of the burst hold 0. *)
Lemma temperature_conversion_witness :
  readBlock SimBus.i2c Scenario.sensorB0 x3b 14 Scenario.worldB0
  = Done (inl [x00; x00; x00; x00; x40; x00; x00; x00; x00; x00; x00; x00; x00; x00])
         Scenario.worldB1
  ∧ ∃ s' w',
      pollTick SimBus.i2c Scenario.sensorB0 Scenario.worldB0 = Done s' w'
      ∧ temperature s' = F64.of_int 21.
Proof.
  assert (Hread : readBlock SimBus.i2c Scenario.sensorB0 x3b 14 Scenario.worldB0
                  = Done (inl [x00; x00; x00; x00; x40; x00; x00; x00;
                               x00; x00; x00; x00; x00; x00]) Scenario.worldB1)
    by (vm_compute; reflexivity).
  split; [exact Hread|].
  destruct (temperature_conversion SimBus.i2c _ _ _ _ Hread ltac:(simpl; lia))
    as [(hi & lo & s' & w' & Hhi & Hlo & Htick & Htemp & _) _].
  exists s', w'. split; [exact Htick|].
  simpl in Hhi, Hlo. injection Hhi as <-. injection Hlo as <-.
  rewrite Htemp. vm_compute. reflexivity.
Defined.

(** Scenario B: construction resolved the scale codes (0, 0), and the
    first tick reads accelerometer (0, 0, 16384). *)
Lemma scenario_B_sample_witness :
  accelScale Scenario.worldB0 = accelScaleOf x00
  ∧ gyroScale Scenario.worldB0 = gyroScaleOf x00
  ∧ readBlock SimBus.i2c Scenario.sensorB0 x3b 14 Scenario.worldB0
    = Done (inl [x00; x00; x00; x00; x40; x00; x00; x00; x00; x00; x00; x00; x00; x00])
           Scenario.worldB1
  ∧ ∃ s' w',
      pollTick SimBus.i2c Scenario.sensorB0 Scenario.worldB0 = Done s' w'
      ∧ linearAcceleration s' = r3.mkVector F64.zero F64.zero (F64.of_ratio 981 100)
      ∧ angularVelocity s' = spatialmath.zero
      ∧ temperature s' = F64.of_int 21.
Proof.
  assert (Ha : accelScale Scenario.worldB0 = accelScaleOf x00) by (vm_compute; reflexivity).
  assert (Hg : gyroScale Scenario.worldB0 = gyroScaleOf x00) by (vm_compute; reflexivity).
  assert (Hread : readBlock SimBus.i2c Scenario.sensorB0 x3b 14 Scenario.worldB0
                  = Done (inl ([x00; x00; x00; x00; x40; x00] ++ [x00; x00]
                               ++ [x00; x00; x00; x00; x00; x00] ++ [])) Scenario.worldB1)
    by (vm_compute; reflexivity).
  split; [exact Ha|]. split; [exact Hg|]. split; [exact Hread|].
  destruct (scenario_B_sample SimBus.i2c _ _ _ _ Ha Hg Hread)
    as [(s' & w' & Htick & Hla & Hz & Hav & Htemp) _].
  exists s', w'. split; [exact Htick|].
  split; [|split; [exact Hav|exact Htemp]].
  rewrite Hla. vm_compute. reflexivity.
Defined.

(** The late fault: the fourth burst read fails after three good polls. *)
Lemma pollTick_failed_read_witness :
  readBlock SimBus.i2c Scenario.sensorLate x3b 14 Scenario.worldLate
  = Done (inr Scenario.ioError) Scenario.worldLate1
  ∧ linearAcceleration Scenario.sensorLate ≠ r3.zero
  ∧ ∃ s' w',
      pollTick SimBus.i2c Scenario.sensorLate Scenario.worldLate = Done s' w'
      ∧ linearAcceleration s' = linearAcceleration Scenario.sensorLate
      ∧ angularVelocity s' = angularVelocity Scenario.sensorLate
      ∧ temperature s' = temperature Scenario.sensorLate.
Proof.
  assert (Hread : readBlock SimBus.i2c Scenario.sensorLate x3b 14 Scenario.worldLate
                  = Done (inr Scenario.ioError) Scenario.worldLate1)
    by (vm_compute; reflexivity).
  split; [exact Hread|]. split; [vm_compute; discriminate|].
  destruct (pollTick_failed_read_keeps_snapshot SimBus.i2c _ _ _ _ Hread)
    as (s' & w' & Htick & Hav & Hla & Htemp & _).
  exists s', w'. split; [exact Htick|]. split; [exact Hla|]. split; [exact Hav|exact Htemp].
Defined.

(** The wrong device: register 117 answers 0x70. *)
Lemma makeMpu9250_identity_mismatch_witness :
  readByte SimBus.i2c (newSensor (T:=Window.t) expectedDefaultAddress) defaultAddressRegister
    Scenario.worldMismatch0
  = Done (inl x70) Scenario.worldMismatch1
  ∧ makeMpu9250 (T:=Window.t) SimBus.i2c Scenario.conf (SimBus.world0 Scenario.busMismatch)
    = Done (None, Some (ErrErrorf
                          "unexpected non-MPU9250 device at address 104: response '112'"))
           Scenario.worldMismatch1.
Proof.
  assert (Hread : readByte SimBus.i2c (newSensor (T:=Window.t) expectedDefaultAddress)
                    defaultAddressRegister Scenario.worldMismatch0
                  = Done (inl x70) Scenario.worldMismatch1)
    by (vm_compute; reflexivity).
  split; [exact Hread|].
  destruct (makeMpu9250_identity_mismatch (T:=Window.t) SimBus.i2c Scenario.conf _
              (SimBus.world0 Scenario.busMismatch) x70 Scenario.worldMismatch1
              eq_refl Hread ltac:(discriminate)) as [Hmake _].
  exact Hmake.
Defined.

(** Scenario A at shutdown: the bus is down, the final write fails. *)
Lemma Close_returns_write_result_witness :
  workers Scenario.sensorA ≠ WorkersNil
  ∧ writeByte SimBus.i2c (with_workers Scenario.sensorA WorkersStopped) x6b x40
      (emits Scenario.worldA [EvWorkersStop; EvLock])
    = Done (Some Scenario.ioError) Scenario.worldA1
  ∧ ∃ w', Close SimBus.i2c Scenario.sensorA Scenario.worldA
          = Done (Some (ErrBus Scenario.ioError),
                  with_workers Scenario.sensorA WorkersStopped) w'.
Proof.
  assert (Hworkers : workers Scenario.sensorA ≠ WorkersNil) by discriminate.
  assert (Hwrite : writeByte SimBus.i2c (with_workers Scenario.sensorA WorkersStopped)
                     x6b x40 (emits Scenario.worldA [EvWorkersStop; EvLock])
                   = Done (Some Scenario.ioError) Scenario.worldA1)
    by (vm_compute; reflexivity).
  split; [exact Hworkers|]. split; [exact Hwrite|].
  destruct (Close_returns_write_result SimBus.i2c _ _ _ _ Hworkers Hwrite)
    as (w' & busEvents & Hclose & _).
  exists w'. exact Hclose.
Defined.

(* ===================================================================== *)
(** ** Register transactions *)
(* ===================================================================== *)

Section Transactions.
Context {B : Type} (i2c : I2C B) {T : Type} `{!LastError T}.
Implicit Types (w : world B) (s : mpu9250 T).

(** A block read extends the trace by the events of one read transaction
    and the log by at most the failure to close the handle. *)
Lemma readBlock_frame s register length w r w1 :
  readBlock i2c s register length w = Done r w1 →
  accelScale w1 = accelScale w ∧ gyroScale w1 = gyroScale w
  ∧ ∃ es ls, trace w1 = trace w ++ es ∧ logs w1 = logs w ++ ls
             ∧ read_events (i2cAddress s) register length es
             ∧ (es = [EvOpenHandle (i2cAddress s)] → ∃ e, r = inr e).
Proof.
  unfold readBlock, closeHandle, on_bus, log, mbind, M_bind, mret, M_ret, read_events.
  destruct (OpenHandle i2c (i2cAddress s) (bus w)) as [[e|] b1]; simpl.
  - intros [= <- <-]. simpl. repeat split.
    exists [EvOpenHandle (i2cAddress s)], []. rewrite app_nil_r. eauto 6.
  - destruct (ReadBlockData i2c _ _ _ b1) as [res b2]; simpl.
    destruct (HandleClose i2c _ b2) as [[e|] b3]; simpl;
      intros [= <- <-]; simpl; repeat split;
      eexists _, _; rewrite <- !app_assoc; simpl;
      (split; [reflexivity|]); (split; [|split; [by right|done]]).
    + reflexivity.
    + by rewrite app_nil_r.
Qed.

Lemma readByte_frame s register w r w1 :
  readByte i2c s register w = Done r w1 →
  accelScale w1 = accelScale w ∧ gyroScale w1 = gyroScale w
  ∧ ∃ es ls, trace w1 = trace w ++ es ∧ logs w1 = logs w ++ ls
             ∧ read_events (i2cAddress s) register 1 es
             ∧ (es = [EvOpenHandle (i2cAddress s)] → ∃ e, r = inr e).
Proof.
  unfold readByte. intros H.
  apply bind_inv in H as (rb & w2 & Hread & H).
  apply readBlock_frame in Hread as (Ha & Hg & es & ls & Ht & Hl & Hshape & Hfail).
  destruct rb as [[|b rest]|e]; try done;
    unfold mret, M_ret in H; injection H as <- <-;
    (split; [done|]); (split; [done|]); exists es, ls; repeat split; try done.
  - intros Hes. by destruct (Hfail Hes).
  - eauto.
Qed.

Lemma writeByte_frame s register value w r w1 :
  writeByte i2c s register value w = Done r w1 →
  accelScale w1 = accelScale w ∧ gyroScale w1 = gyroScale w
  ∧ ∃ es ls, trace w1 = trace w ++ es ∧ logs w1 = logs w ++ ls
             ∧ write_events (i2cAddress s) register value es
             ∧ (es = [EvOpenHandle (i2cAddress s)] → ∃ e, r = Some e).
Proof.
  unfold writeByte, closeHandle, on_bus, log, mbind, M_bind, mret, M_ret, write_events.
  destruct (OpenHandle i2c (i2cAddress s) (bus w)) as [[e|] b1]; simpl.
  - intros [= <- <-]. simpl. repeat split.
    exists [EvOpenHandle (i2cAddress s)], []. rewrite app_nil_r. eauto 6.
  - destruct (WriteByteData i2c _ _ _ b1) as [res b2]; simpl.
    destruct (HandleClose i2c _ b2) as [[e|] b3]; simpl;
      intros [= <- <-]; simpl; repeat split;
      eexists _, _; rewrite <- !app_assoc; simpl;
      (split; [reflexivity|]); (split; [|split; [by right|done]]).
    + reflexivity.
    + by rewrite app_nil_r.
Qed.

(** X1: a register transaction releases its handle on every path.  When
    the handle cannot be opened, [readBlock] and [writeByte] return that
    error and do nothing else on the bus.  When it opens, they perform
    the one read or write and then close the handle, whether or not the
    read or write failed; they return what the bus returned, and a
    failure to close is only logged. *)
Theorem transactions_release_the_handle s register length value w :
  (∀ e b, OpenHandle i2c (i2cAddress s) (bus w) = (Some e, b) →
     ∃ w1, readBlock i2c s register length w = Done (inr e) w1
           ∧ writeByte i2c s register value w = Done (Some e) w1
           ∧ bus w1 = b ∧ logs w1 = logs w
           ∧ trace w1 = trace w ++ [EvOpenHandle (i2cAddress s)])
  ∧ (∀ b, OpenHandle i2c (i2cAddress s) (bus w) = (None, b) →
       let read := ReadBlockData i2c (i2cAddress s) register length b in
       let write := WriteByteData i2c (i2cAddress s) register value b in
       ∃ wr ww,
         readBlock i2c s register length w = Done read.1 wr
         ∧ writeByte i2c s register value w = Done write.1 ww
         ∧ bus wr = (HandleClose i2c (i2cAddress s) read.2).2
         ∧ bus ww = (HandleClose i2c (i2cAddress s) write.2).2
         ∧ trace wr = trace w ++ [EvOpenHandle (i2cAddress s);
                                  EvReadBlockData register length; EvHandleClose]
         ∧ trace ww = trace w ++ [EvOpenHandle (i2cAddress s);
                                  EvWriteByteData register value; EvHandleClose]
         ∧ logs wr = logs w ++ match (HandleClose i2c (i2cAddress s) read.2).1 with
                               | Some e => [LogError (ErrBus e)]
                               | None => []
                               end
         ∧ logs ww = logs w ++ match (HandleClose i2c (i2cAddress s) write.2).1 with
                               | Some e => [LogError (ErrBus e)]
                               | None => []
                               end).
Proof.
  split.
  - intros e b Hopen. eexists.
    unfold readBlock, writeByte, on_bus, mbind, M_bind, mret, M_ret.
    rewrite Hopen. simpl. by repeat split.
  - intros b Hopen read write. subst read write.
    unfold readBlock, writeByte, closeHandle, on_bus, log, mbind, M_bind, mret, M_ret.
    rewrite Hopen. simpl.
    destruct (ReadBlockData i2c _ _ _ b) as [res b2]; simpl.
    destruct (WriteByteData i2c _ _ _ b) as [res' b2']; simpl.
    destruct (HandleClose i2c _ b2) as [[e|] b3]; simpl;
      destruct (HandleClose i2c _ b2') as [[e'|] b3']; simpl;
      eexists _, _; (split; [reflexivity|]); (split; [reflexivity|]); simpl;
      rewrite <- !app_assoc, ?app_nil_r; by repeat split.
Qed.

(** The shape of every return of [getReadingScales]. *)
Lemma getReadingScales_cases s w g a e w' :
  getReadingScales i2c s w = Done (g, a, e) w' →
  accelScale w' = accelScale w ∧ gyroScale w' = gyroScale w
  ∧ ∃ es ls, trace w' = trace w ++ es ∧ logs w' = logs w ++ ls
    ∧ ((∃ err, e = Some err ∧ g = F64.zero ∧ a = F64.zero
               ∧ (read_events (i2cAddress s) x1b 1 es
                  ∨ ∃ es28, es = [EvOpenHandle (i2cAddress s); EvReadBlockData x1b 1;
                                  EvHandleClose] ++ es28
                            ∧ read_events (i2cAddress s) x1c 1 es28))
       ∨ (∃ rg ra, e = None ∧ g = gyroScaleOf rg ∧ a = accelScaleOf ra
                   ∧ es = [EvOpenHandle (i2cAddress s); EvReadBlockData x1b 1; EvHandleClose;
                           EvOpenHandle (i2cAddress s); EvReadBlockData x1c 1; EvHandleClose])).
Proof.
  unfold getReadingScales. intros H.
  apply bind_inv in H as (r27 & w1 & H27 & H).
  apply readByte_frame in H27 as (Ha1 & Hg1 & es1 & ls1 & Ht1 & Hl1 & Hs1 & Hf1).
  destruct r27 as [rg|err].
  - apply bind_inv in H as (r28 & w2 & H28 & H).
    apply readByte_frame in H28 as (Ha2 & Hg2 & es2 & ls2 & Ht2 & Hl2 & Hs2 & Hf2).
    destruct r28 as [ra|err]; unfold mret, M_ret in H; injection H as <- <- <- <-;
      (split; [congruence|]); (split; [congruence|]);
      exists (es1 ++ es2), (ls1 ++ ls2);
      (split; [by rewrite Ht2, Ht1, app_assoc|]);
      (split; [by rewrite Hl2, Hl1, app_assoc|]).
    + right. exists rg, ra. repeat split.
      destruct Hs1 as [-> | ->]; [by destruct (Hf1 eq_refl)|].
      destruct Hs2 as [-> | ->]; [by destruct (Hf2 eq_refl)|done].
    + left. exists err. repeat split. right. exists es2. split; [|done].
      destruct Hs1 as [-> | ->]; [by destruct (Hf1 eq_refl)|done].
  - unfold mret, M_ret in H. injection H as <- <- <- <-.
    split; [done|]. split; [done|]. exists es1, ls1.
    split; [done|]. split; [done|]. left. exists err. repeat split. by left.
Qed.

Lemma gyroScaleOf_values (b : byte) :
  gyroScaleOf b ∈ [F64.zero; F64.of_ratio 250 32768; F64.of_ratio 500 32768;
                   F64.of_ratio 1000 32768; F64.of_ratio 2000 32768].
Proof. destruct b; vm_compute; repeat constructor. Qed.

Lemma accelScaleOf_values (b : byte) :
  accelScaleOf b ∈ [F64.zero; F64.of_ratio 2 32768; F64.of_ratio 4 32768;
                    F64.of_ratio 8 32768; F64.of_ratio 16 32768].
Proof. destruct b; vm_compute; repeat constructor. Qed.

(** X2: whenever [getReadingScales] returns, either it reports an error
    and both scales are 0, or it reports none and each scale is one of
    the four table values or 0; it never rewrites the package variables
    itself, and it reads register 28 only after a completed transaction
    on register 27. *)
Theorem getReadingScales_result s w g a e w' :
  getReadingScales i2c s w = Done (g, a, e) w' →
  (is_Some e → g = F64.zero ∧ a = F64.zero)
  ∧ g ∈ [F64.zero; F64.of_ratio 250 32768; F64.of_ratio 500 32768;
         F64.of_ratio 1000 32768; F64.of_ratio 2000 32768]
  ∧ a ∈ [F64.zero; F64.of_ratio 2 32768; F64.of_ratio 4 32768;
         F64.of_ratio 8 32768; F64.of_ratio 16 32768]
  ∧ accelScale w' = accelScale w ∧ gyroScale w' = gyroScale w
  ∧ ∃ es, trace w' = trace w ++ es
          ∧ (EvReadBlockData x1c 1 ∈ es →
             [EvOpenHandle (i2cAddress s); EvReadBlockData x1b 1; EvHandleClose]
               `prefix_of` es)
          ∧ (e = None → length es = 6%nat).
Proof.
  intros H.
  apply getReadingScales_cases in H
    as (Ha & Hg & es & ls & Ht & _ & [(err & -> & -> & -> & Hes)
                                     |(rg & ra & -> & -> & -> & ->)]).
  - split; [done|]. split; [by constructor|]. split; [by constructor|].
    split; [done|]. split; [done|]. exists es. split; [done|]. split; [|done].
    intros Hin. destruct Hes as [[-> | ->]|(es28 & -> & Hs28)]; [| |by eexists];
      repeat (apply elem_of_cons in Hin as [Hin|Hin]; [discriminate Hin|]);
      by apply elem_of_nil in Hin.
  - split; [by intros [? ?]|]. split; [apply gyroScaleOf_values|].
    split; [apply accelScaleOf_values|]. split; [done|]. split; [done|].
    eexists. split; [done|]. split; [|done]. intros _. by eexists.
Qed.

(** X3: [getAccelScale] is the accelerometer half of [getReadingScales]:
    for every byte read from register 28 it selects the same factor, and
    once register 27 has been read, [getReadingScales] finishes exactly
    as [getAccelScale] does. *)
Theorem getAccelScale_agrees s w :
  getAccelScale i2c s w
  = (readByte i2c s x1c ≫= λ r,
     mret (match r with
           | inl result => (accelScaleOf result, None)
           | inr e => (F64.zero, Some e)
           end)) w
  ∧ ∀ rg w1,
      readByte i2c s x1b w = Done (inl rg) w1 →
      getReadingScales i2c s w
      = (getAccelScale i2c s ≫= λ r,
         mret (match r.2 with
               | None => (gyroScaleOf rg, r.1, None)
               | Some e => (F64.zero, F64.zero, Some e)
               end)) w1.
Proof.
  assert (Hfirst : ∀ w0,
    getAccelScale i2c s w0
    = (readByte i2c s x1c ≫= λ r,
       mret (match r with
             | inl result => (accelScaleOf result, None)
             | inr e => (F64.zero, Some e)
             end)) w0).
  { intros w0. unfold getAccelScale, mbind, M_bind.
    destruct (readByte i2c s x1c w0) as [[b|e] w1|w1]; [|done|done].
    by destruct b. }
  split; [apply Hfirst|].
  intros rg w1 H27. unfold getReadingScales.
  rewrite (bind_Done _ _ _ _ _ H27).
  unfold mbind at 2, M_bind at 2. rewrite Hfirst.
  unfold mbind, M_bind.
  by destruct (readByte i2c s x1c w1) as [[b|e] w2|w2].
Qed.

(** Every way [makeMpu9250] can return once the configuration converts. *)
Lemma makeMpu9250_cases conf newConf w r w' :
  NativeConfig conf = inl newConf →
  makeMpu9250 (T:=T) i2c conf w = Done r w' →
  let address :=
    if UseAlternateI2CAddress newConf then alternateAddress else expectedDefaultAddress in
  let identity := [EvOpenHandle address; EvReadBlockData defaultAddressRegister 1;
                   EvHandleClose] in
  let wake := [EvOpenHandle address; EvWriteByteData x6b x00; EvHandleClose] in
  ∃ es ls,
    trace w' = trace w ++ es ∧ logs w' = logs w ++ ls
    ∧ ((∃ e, r = (None, Some (addressReadError (ErrBus e) address (I2cBus newConf)))
             ∧ read_events address defaultAddressRegister 1 es
             ∧ accelScale w' = accelScale w ∧ gyroScale w' = gyroScale w)
       ∨ (∃ b, b ≠ expectedConfigurationReadAddress
               ∧ r = (None, Some (unexpectedDeviceError address b))
               ∧ es = identity
               ∧ accelScale w' = accelScale w ∧ gyroScale w' = gyroScale w)
       ∨ (∃ e wes, r = (None, Some (ErrErrorf ("Unable to wake up MPU9250: '"
                                               ++ busErrorText e ++ "'")))
                   ∧ es = identity ++ wes ∧ write_events address x6b x00 wes
                   ∧ accelScale w' = accelScale w ∧ gyroScale w' = gyroScale w)
       ∨ (∃ e ses, r = (None, Some (ErrBus e))
                   ∧ es = identity ++ wake ++ ses
                   ∧ (read_events address x1b 1 ses
                      ∨ ∃ es28, ses = [EvOpenHandle address; EvReadBlockData x1b 1;
                                       EvHandleClose] ++ es28
                                ∧ read_events address x1c 1 es28)
                   ∧ accelScale w' = F64.zero ∧ gyroScale w' = F64.zero)
       ∨ (∃ rg ra, r = (Some (with_workers (newSensor address) WorkersRunning), None)
                   ∧ es = identity ++ wake
                          ++ [EvOpenHandle address; EvReadBlockData x1b 1; EvHandleClose;
                              EvOpenHandle address; EvReadBlockData x1c 1; EvHandleClose;
                              EvWorkersStart]
                   ∧ gyroScale w' = gyroScaleOf rg ∧ accelScale w' = accelScaleOf ra)).
Proof.
  intros Hconf H address identity wake. unfold makeMpu9250 in H.
  rewrite Hconf in H. fold address in H.
  apply bind_inv in H as ([] & w0 & Hlog & H).
  unfold log in Hlog. injection Hlog as <-.
  apply bind_inv in H as (rid & w1 & Hid & H).
  apply readByte_frame in Hid as (Ha1 & Hg1 & es1 & ls1 & Ht1 & Hl1 & Hs1 & Hf1).
  simpl in Ha1, Hg1, Ht1, Hl1, Hs1, Hf1.
  destruct rid as [b|e].
  2:{ unfold mret, M_ret in H. injection H as <- <-.
      exists es1, (LogDebugf ("Using address " ++ fmt_d address ++ " for MPU9250 sensor")
                   :: ls1).
      split; [done|]. split; [by rewrite Hl1, <- app_assoc|].
      left. by exists e. }
  assert (es1 = identity) as ->.
  { destruct Hs1 as [-> | ->]; [by destruct (Hf1 eq_refl)|done]. }
  destruct (Byte.eqb b expectedConfigurationReadAddress) eqn:Heq; simpl in H.
  2:{ unfold mret, M_ret in H. injection H as <- <-.
      eexists identity, _. split; [done|]. split; [by rewrite Hl1, <- app_assoc|].
      right; left. exists b. apply Byte.eqb_false in Heq. by repeat split. }
  apply bind_inv in H as (rw & w2 & Hw & H).
  apply writeByte_frame in Hw as (Ha2 & Hg2 & es2 & ls2 & Ht2 & Hl2 & Hs2 & Hf2).
  simpl in Ha2, Hg2, Ht2, Hl2, Hs2, Hf2.
  destruct rw as [e|].
  { unfold mret, M_ret in H. injection H as <- <-.
    eexists (identity ++ es2), _.
    split; [by rewrite Ht2, Ht1, <- app_assoc|].
    split; [by rewrite Hl2, Hl1, <- !app_assoc|].
    right; right; left. exists e, es2. repeat split; [done|congruence|congruence]. }
  assert (es2 = wake) as ->.
  { destruct Hs2 as [-> | ->]; [by destruct (Hf2 eq_refl)|done]. }
  apply bind_inv in H as ([[g a] e] & w3 & Hsc & H).
  apply getReadingScales_cases in Hsc
    as (Ha3 & Hg3 & es3 & ls3 & Ht3 & Hl3 & Hcase).
  simpl in Ha3, Hg3, Ht3, Hl3, Hcase.
  apply bind_inv in H as ([] & w4 & Hset & H).
  unfold set_scales in Hset. injection Hset as <-.
  destruct Hcase as [(err & -> & -> & -> & Hes)
                    |(rg & ra & -> & -> & -> & ->)].
  - unfold mret, M_ret in H. injection H as <- <-.
    eexists (identity ++ wake ++ es3), _. simpl trace. simpl logs.
    split; [by rewrite Ht3, Ht2, Ht1, <- !app_assoc|].
    split; [by rewrite Hl3, Hl2, Hl1, <- !app_assoc|].
    right; right; right; left. exists err, es3. by repeat split.
  - apply bind_inv in H as ([] & w5 & Hemit & H).
    unfold emit in Hemit. injection Hemit as <-.
    unfold mret, M_ret in H. injection H as <- <-.
    eexists _, _. simpl trace. simpl logs.
    split; [by rewrite Ht3, Ht2, Ht1, <- !app_assoc|].
    split; [by rewrite Hl3, Hl2, Hl1, <- !app_assoc|].
    right; right; right; right. exists rg, ra. by repeat split.
Qed.

End Transactions.

(* ===================================================================== *)
(** ** Construction, path by path *)
(* ===================================================================== *)

Section Construction.
Context {B : Type} (i2c : I2C B) {T : Type} `{!LastError T}.
Implicit Types (w : world B) (s : mpu9250 T).

Local Ltac mem H :=
  rewrite ?elem_of_app, ?elem_of_cons, ?elem_of_nil in H; destruct_or?; simplify_eq/=.

(** X4: construction returns a sensor or an error, never both and never
    neither.  A returned sensor is at the address the configuration
    selects (0x69 with the alternate flag, 0x68 without), holds the zero
    snapshot and a fresh tracker, and has its goroutine running. *)
Theorem makeMpu9250_sensor_or_error conf w r w' :
  makeMpu9250 (T:=T) i2c conf w = Done r w' →
  (is_Some r.1 ↔ r.2 = None)
  ∧ ∀ s, r.1 = Some s →
      ∃ newConf,
        NativeConfig conf = inl newConf
        ∧ i2cAddress s = (if UseAlternateI2CAddress newConf then x69 else x68)
        ∧ angularVelocity s = spatialmath.zero
        ∧ linearAcceleration s = r3.zero
        ∧ temperature s = F64.zero
        ∧ err s = NewLastError 10 5
        ∧ workers s = WorkersRunning.
Proof.
  intros H. destruct (NativeConfig conf) as [newConf|e] eqn:Hconf.
  - destruct (makeMpu9250_cases _ _ _ _ _ _ Hconf H) as (es & ls & _ & _ & Hcase).
    destruct Hcase as [(e & -> & _)|[(b & _ & -> & _)|[(e & wes & -> & _)
                      |[(e & ses & -> & _)|(rg & ra & -> & _)]]]]; simpl;
      try (split; [split; [by intros [? ?]|done]|done]).
    split; [by split; [|eexists]|]. intros s [= <-].
    exists newConf. by repeat split.
  - unfold makeMpu9250 in H. rewrite Hconf in H. injection H as <- _. simpl.
    split; [split; [by intros [? ?]|done]|done].
Qed.

(** X5: construction fails fast and in order.  The only byte it ever
    writes is 0 to register 107, and only after the identity register
    was read; the scale registers are read only after that write went
    through; the goroutine is started exactly when a sensor is returned,
    as the last thing done. *)
Theorem makeMpu9250_order conf newConf w r w' :
  NativeConfig conf = inl newConf →
  makeMpu9250 (T:=T) i2c conf w = Done r w' →
  let address :=
    if UseAlternateI2CAddress newConf then alternateAddress else expectedDefaultAddress in
  let identity := [EvOpenHandle address; EvReadBlockData x75 1; EvHandleClose] in
  let wake := [EvOpenHandle address; EvWriteByteData x6b x00; EvHandleClose] in
  ∃ es,
    trace w' = trace w ++ es
    ∧ (∀ reg v, EvWriteByteData reg v ∈ es →
         reg = x6b ∧ v = x00 ∧ identity `prefix_of` es)
    ∧ (∀ reg n, EvReadBlockData reg n ∈ es →
         n = 1%N ∧ (reg = x75 ∨ (identity ++ wake) `prefix_of` es))
    ∧ (EvWorkersStart ∈ es ↔ is_Some r.1)
    ∧ (is_Some r.1 → ∃ es', es = es' ++ [EvWorkersStart] ∧ EvWorkersStart ∉ es').
Proof.
  intros Hconf H address identity wake.
  destruct (makeMpu9250_cases _ _ _ _ _ _ Hconf H) as (es & ls & Ht & _ & Hcase).
  fold address in Hcase. exists es. split; [done|].
  destruct Hcase as [(e & -> & Hs & _)|[(b & _ & -> & -> & _)|[(e & wes & -> & -> & Hs & _)
                    |[(e & ses & -> & -> & Hs & _)|(rg & ra & -> & -> & _)]]]];
    try destruct Hs as [Hs|(es28 & -> & Hs)]; try destruct Hs as [-> | ->]; simpl;
    (split; [intros reg v Hin; mem Hin; split_and!; try done; by eexists|]);
    (split; [intros reg n Hin; mem Hin; (split; [done|]);
             first [by left|right; by eexists]|]);
    first [by split; [split; [intros Hin; mem Hin|intros [? ?]]|intros [? ?]]|idtac].
  split; [split; [by eexists|intros _; by repeat constructor]|].
  intros _.
  exists (identity ++ wake ++ [EvOpenHandle address; EvReadBlockData x1b 1; EvHandleClose;
                                EvOpenHandle address; EvReadBlockData x1c 1; EvHandleClose]).
  split; [reflexivity|]. intros Hin. unfold identity, wake in Hin. mem Hin.
Qed.

(** X6: what construction does to the two package-level scales.  When it
    returns a sensor they hold table entries for the bytes just read.
    When a scale register could not be read (the bare bus error is
    returned) both are reset to 0, whatever they were before.  When
    construction fails earlier they are left alone. *)
Theorem makeMpu9250_scales conf newConf w r w' :
  NativeConfig conf = inl newConf →
  makeMpu9250 (T:=T) i2c conf w = Done r w' →
  match r with
  | (Some _, _) => ∃ rg ra, gyroScale w' = gyroScaleOf rg ∧ accelScale w' = accelScaleOf ra
  | (None, Some (ErrBus _)) => gyroScale w' = F64.zero ∧ accelScale w' = F64.zero
  | (None, _) => gyroScale w' = gyroScale w ∧ accelScale w' = accelScale w
  end.
Proof.
  intros Hconf H.
  destruct (makeMpu9250_cases _ _ _ _ _ _ Hconf H) as (es & ls & _ & _ & Hcase).
  destruct Hcase as [(e & -> & _ & Ha & Hg)|[(b & _ & -> & _ & Ha & Hg)
                    |[(e & wes & -> & _ & _ & Ha & Hg)
                    |[(e & ses & -> & _ & _ & Ha & Hg)|(rg & ra & -> & _ & Hg & Ha)]]]];
    simpl; eauto.
Qed.

End Construction.

(* ===================================================================== *)
(** ** The polling goroutine over a run *)
(* ===================================================================== *)

Section Polling.
Context {B : Type} (i2c : I2C B) {T : Type} `{!LastError T}.
Implicit Types (w : world B) (s : mpu9250 T).

Lemma slice_world (data : list byte) lo hi w x w1 :
  slice (B:=B) data lo hi w = Done x w1 → w1 = w.
Proof.
  unfold slice. destruct (_ && _); [|done]. unfold mret, M_ret. by intros [= _ <-].
Qed.

Lemma int16_world (data : list byte) w x w1 : int16 (B:=B) data w = Done x w1 → w1 = w.
Proof.
  unfold int16. destruct (Int16FromBytesBE data); [|done].
  unfold mret, M_ret. by intros [= _ <-].
Qed.

Lemma slice_int16_world (data : list byte) lo hi w x w1 :
  (slice (B:=B) data lo hi ≫= int16) w = Done x w1 → w1 = w.
Proof.
  intros H. apply bind_inv in H as (d & w2 & Hs & Hi).
  apply slice_world in Hs as ->. by apply int16_world in Hi.
Qed.

Lemma toLinearAcceleration_world (data : list byte) w x w1 :
  toLinearAcceleration (B:=B) data w = Done x w1 → w1 = w.
Proof.
  unfold toLinearAcceleration. intros H.
  do 3 (apply bind_inv in H as (? & ? & Hd & H); apply slice_int16_world in Hd as ->).
  apply bind_inv in H as (? & ? & Hd & H).
  unfold get_accelScale in Hd. injection Hd as _ <-.
  unfold mret, M_ret in H. by injection H as _ <-.
Qed.

Lemma toAngularVelocity_world (data : list byte) w x w1 :
  toAngularVelocity (B:=B) data w = Done x w1 → w1 = w.
Proof.
  unfold toAngularVelocity. intros H.
  do 3 (apply bind_inv in H as (? & ? & Hd & H); apply slice_int16_world in Hd as ->).
  apply bind_inv in H as (? & ? & Hd & H).
  unfold get_gyroScale in Hd. injection Hd as _ <-.
  unfold mret, M_ret in H. by injection H as _ <-.
Qed.

(** Every way a tick can return: the burst read failed and only the
    tracker moved, or it succeeded and the sample was published under the
    lock. *)
Lemma pollTick_cases s w s' w' :
  pollTick i2c s w = Done s' w' →
  i2cAddress s' = i2cAddress s ∧ workers s' = workers s
  ∧ accelScale w' = accelScale w ∧ gyroScale w' = gyroScale w
  ∧ ∃ es ls,
      trace w' = trace w ++ es ∧ logs w' = logs w ++ ls
      ∧ ((∃ e, read_events (i2cAddress s) x3b 14 es
               ∧ err s' = LastError_Set (err s) (Some (ErrBus e))
               ∧ angularVelocity s' = angularVelocity s
               ∧ linearAcceleration s' = linearAcceleration s
               ∧ temperature s' = temperature s)
         ∨ (es = [EvOpenHandle (i2cAddress s); EvReadBlockData x3b 14; EvHandleClose;
                  EvLock; EvUnlock]
            ∧ err s' = LastError_Set (err s) None)).
Proof.
  unfold pollTick. intros H.
  apply bind_inv in H as (r & w1 & Hread & H).
  apply readBlock_frame in Hread as (Ha & Hg & es & ls & Ht & Hl & Hs & Hf).
  destruct r as [rawData|e].
  - apply bind_inv in H as (la & w2 & Hla & H).
    apply bind_inv in Hla as (d & w3 & Hd & Hla).
    apply slice_world in Hd as ->. apply toLinearAcceleration_world in Hla as ->.
    apply bind_inv in H as (t & w2 & Hd & H). apply slice_int16_world in Hd as ->.
    apply bind_inv in H as (av & w2 & Hav & H).
    apply bind_inv in Hav as (d' & w3 & Hd & Hav).
    apply slice_world in Hd as ->. apply toAngularVelocity_world in Hav as ->.
    unfold mbind, M_bind, emit, mret, M_ret in H. injection H as <- <-. simpl.
    repeat (split; [done|]).
    exists (es ++ [EvLock; EvUnlock]), ls.
    split; [by rewrite Ht, <- !app_assoc|]. split; [done|]. right.
    split; [|done].
    destruct Hs as [-> | ->]; [by destruct (Hf eq_refl)|done].
  - unfold mbind, M_bind, log, mret, M_ret in H. injection H as <- <-. simpl.
    repeat (split; [done|]).
    exists es, (ls ++ [LogErrorf ("error reading MPU9250 sensor: '"
                                  ++ busErrorText e ++ "'")]).
    split; [done|]. split; [by rewrite Hl, <- app_assoc|]. left. by exists e.
Qed.

(** A run of the goroutine, tick by tick. *)
Lemma pollLoop_cases events : ∀ s w s' w',
  pollLoop i2c events s w = Done s' w' →
  i2cAddress s' = i2cAddress s ∧ workers s' = workers s
  ∧ accelScale w' = accelScale w ∧ gyroScale w' = gyroScale w
  ∧ ∃ es ls outcomes,
      trace w' = trace w ++ es ∧ logs w' = logs w ++ ls
      ∧ poll_events (i2cAddress s) (ticks events) es
      ∧ length outcomes = ticks events
      ∧ err s' = foldl LastError_Set (err s) outcomes
      ∧ (Forall is_Some outcomes →
         angularVelocity s' = angularVelocity s
         ∧ linearAcceleration s' = linearAcceleration s
         ∧ temperature s' = temperature s).
Proof.
  induction events as [|[|] rest IH]; intros s w s' w' H; simpl in H.
  - injection H as <- <-. repeat (split; [done|]).
    exists [], [], []. by rewrite !app_nil_r.
  - apply bind_inv in H as (s1 & w1 & Htick & H).
    apply pollTick_cases in Htick
      as (Hi1 & Hw1 & Ha1 & Hg1 & es1 & ls1 & Ht1 & Hl1 & Hcase).
    apply IH in H
      as (Hi2 & Hw2 & Ha2 & Hg2 & es2 & ls2 & outcomes & Ht2 & Hl2 & Hp & Hlen & Herr & Hsnap).
    split; [congruence|]. split; [congruence|]. split; [congruence|]. split; [congruence|].
    rewrite Hi1 in Hp.
    destruct Hcase as [(e & Hs & He & Hav & Hla & Htemp)|[-> He]].
    + exists (es1 ++ es2), (ls1 ++ ls2), (Some (ErrBus e) :: outcomes).
      split; [by rewrite Ht2, Ht1, app_assoc|]. split; [by rewrite Hl2, Hl1, app_assoc|].
      split; [exists es1, es2; by repeat split; [left|]|].
      split; [simpl; by rewrite Hlen|]. split; [simpl; by rewrite Herr, He|].
      intros Hall. apply Forall_cons_1 in Hall as [_ Hall].
      destruct (Hsnap Hall) as (-> & -> & ->). done.
    + eexists (_ ++ es2), (ls1 ++ ls2), (None :: outcomes).
      split; [by rewrite Ht2, Ht1, app_assoc|]. split; [by rewrite Hl2, Hl1, app_assoc|].
      split; [eexists _, es2; by repeat split; [right|]|].
      split; [simpl; by rewrite Hlen|]. split; [simpl; by rewrite Herr, He|].
      intros Hall. apply Forall_cons_1 in Hall as [[? [=]] _].
  - injection H as <- <-. repeat (split; [done|]).
    exists [], [], []. by rewrite !app_nil_r.
Qed.

(** What [n] ticks can put on the trace. *)
Lemma poll_events_facts address n : ∀ es,
  poll_events address n es →
  Forall (λ ev, ev ∈ [EvOpenHandle address; EvReadBlockData x3b 14; EvHandleClose;
                      EvLock; EvUnlock]) es
  ∧ brief_locks es = true
  ∧ length (filter (λ ev, is_open ev = true) es) = n.
Proof.
  induction n as [|n IH]; intros es Hes; simpl in Hes.
  - by subst.
  - destruct Hes as (tick & rest & -> & Htick & Hrest).
    destruct (IH _ Hrest) as (Hall & Hlocks & Hcount).
    rewrite filter_app, length_app, Hcount.
    destruct Htick as [[-> | ->] | ->]; simpl;
      (split; [repeat (apply Forall_cons_2; [by repeat constructor|]); done|]);
      by split.
Qed.

(** X7: over any run, the goroutine only ever opens a handle at the
    sensor's own address, reads 14 bytes at register 59 and closes the
    handle; it never writes to the chip, starts exactly one transaction
    per tick (a failed one is not retried), and holds the lock only for
    the publication itself, never across bus traffic.  Address, worker
    state and the package scales are left as they were. *)
Theorem pollLoop_bus_traffic events s w s' w' :
  pollLoop i2c events s w = Done s' w' →
  i2cAddress s' = i2cAddress s ∧ workers s' = workers s
  ∧ accelScale w' = accelScale w ∧ gyroScale w' = gyroScale w
  ∧ ∃ es,
      trace w' = trace w ++ es
      ∧ Forall (λ ev, ev ∈ [EvOpenHandle (i2cAddress s); EvReadBlockData x3b 14;
                            EvHandleClose; EvLock; EvUnlock]) es
      ∧ brief_locks es = true
      ∧ length (filter (λ ev, is_open ev = true) es) = ticks events.
Proof.
  intros H.
  apply pollLoop_cases in H
    as (Hi & Hw & Ha & Hg & es & ls & outcomes & Ht & _ & Hp & _).
  repeat (split; [done|]). exists es. split; [done|].
  by apply poll_events_facts.
Qed.

(** X8: the loop serves the ticks that arrive before the cancellation
    and nothing after it, and a run of ticks is the run of its first
    part followed by the run of the rest. *)
Theorem pollLoop_decomposes events s w :
  pollLoop i2c events s w = pollLoop i2c (replicate (ticks events) TimerTick) s w
  ∧ ∀ n rest,
      pollLoop i2c (replicate n TimerTick ++ rest) s w
      = (pollLoop i2c (replicate n TimerTick) s ≫= pollLoop i2c rest) w.
Proof.
  split.
  - revert s w. induction events as [|[|] rest IH]; intros s w; simpl; [done| |done].
    unfold mbind, M_bind. by destruct (pollTick i2c s w).
  - intros n rest. revert s w. induction n as [|n IH]; intros s w; simpl; [done|].
    unfold mbind, M_bind. destruct (pollTick i2c s w) as [s1 w1|w1]; [|done].
    apply IH.
Qed.


(** X10: a burst read that succeeds with fewer than 14 bytes makes the
    tick panic: nothing is published and the short read is not reported
    as an error. *)
Theorem pollTick_short_read_panics s w rawData w1 :
  readBlock i2c s x3b 14 w = Done (inl rawData) w1 →
  (length rawData < 14)%nat →
  pollTick i2c s w = Panicked w1.
Proof.
  intros Hread Hlen. unfold pollTick.
  rewrite (bind_Done _ _ _ _ _ Hread).
  do 14 (destruct rawData as [|? rawData]; [reflexivity|]).
  simpl in Hlen. lia.
Qed.

End Polling.

(* ===================================================================== *)
(** ** The accessors together *)
(* ===================================================================== *)

Section Accessors.
Context {B : Type} (i2c : I2C B) {T : Type} `{!LastError T}.
Implicit Types (w : world B) (s : mpu9250 T).

(** X11: the three reading accessors agree.  From the same state
    [AngularVelocity], [LinearAcceleration] and [Readings] return the
    same error and leave the same state behind: only the tracker may
    have moved, and the world has only seen the lock taken and released.
    The map of [Readings] carries the angular velocity that
    [AngularVelocity] returns and always the cached linear acceleration,
    which [LinearAcceleration] returns only when no fault is reported and
    replaces by the zero vector otherwise. *)
Theorem accessors_agree s w :
  ∃ la m,
    AngularVelocity s w
    = Done (angularVelocity s, (LastError_Get (err s)).1,
            with_err s (LastError_Get (err s)).2) (emits w [EvLock; EvUnlock])
    ∧ LinearAcceleration s w
      = Done (la, (LastError_Get (err s)).1,
              with_err s (LastError_Get (err s)).2) (emits w [EvLock; EvUnlock])
    ∧ Readings s w
      = Done (m, (LastError_Get (err s)).1,
              with_err s (LastError_Get (err s)).2) (emits w [EvLock; EvUnlock])
    ∧ m !! "angular_velocity" = Some (RAngularVelocity (angularVelocity s))
    ∧ m !! "linear_acceleration" = Some (RVector (linearAcceleration s))
    ∧ ((LastError_Get (err s)).1 = None → la = linearAcceleration s)
    ∧ (is_Some (LastError_Get (err s)).1 → la = r3.zero).
Proof.
  unfold AngularVelocity, LinearAcceleration, Readings.
  unfold mbind, M_bind, emit, mret, M_ret.
  destruct (LastError_Get (err s)) as [[e|] t]; simpl; rewrite !emits_emits; simpl;
    eexists _, _; (split; [reflexivity|]); (split; [reflexivity|]);
    (split; [reflexivity|]); (split; [by simplify_map_eq|]);
    (split; [by simplify_map_eq|]); split; try done; by intros [? ?].
Qed.

(** X12: what a successful tick decodes is what the accessors then serve:
    the temperature from bytes 6 and 7, the angular velocity from bytes
    8 to 13 times the gyroscope scale, the linear acceleration from
    bytes 0 to 5 times the accelerometer scale times 9.81, with the
    scales the package variables held at the tick. *)
Theorem published_sample_is_served s w w1
    b0 b1 b2 b3 b4 b5 b6 b7 b8 b9 b10 b11 b12 b13 rest :
  readBlock i2c s x3b 14 w
  = Done (inl (b0 :: b1 :: b2 :: b3 :: b4 :: b5 :: b6 :: b7
               :: b8 :: b9 :: b10 :: b11 :: b12 :: b13 :: rest)) w1 →
  ∃ s' w' m e s'' w'',
    pollTick i2c s w = Done s' w'
    ∧ Readings s' w' = Done (m, e, s'') w''
    ∧ AngularVelocity s' w'
      = Done (spatialmath.mkAngularVelocity
                (setScale (int16BE b8 b9) (gyroScale w))
                (setScale (int16BE b10 b11) (gyroScale w))
                (setScale (int16BE b12 b13) (gyroScale w)), e, s'') w''
    ∧ m !! "temperature_celsius" = Some (RFloat (toTemperature (int16BE b6 b7)))
    ∧ m !! "angular_velocity"
      = Some (RAngularVelocity
                (spatialmath.mkAngularVelocity
                   (setScale (int16BE b8 b9) (gyroScale w))
                   (setScale (int16BE b10 b11) (gyroScale w))
                   (setScale (int16BE b12 b13) (gyroScale w))))
    ∧ m !! "linear_acceleration"
      = Some (RVector
                (r3.mkVector
                   (F64.mul (setScale (int16BE b0 b1) (accelScale w)) c_9_81)
                   (F64.mul (setScale (int16BE b2 b3) (accelScale w)) c_9_81)
                   (F64.mul (setScale (int16BE b4 b5) (accelScale w)) c_9_81))).
Proof.
  intros Hread.
  destruct (readBlock_scales _ _ _ _ _ _ _ Hread) as [Ha Hg].
  pose proof (pollTick_success _ _ _ _ _ _ _ _ _ _ _ _ _ _ _ _ _ _ _ Hread) as Htick.
  rewrite Ha, Hg in Htick.
  destruct (LastError_Get (LastError_Set (err s) None)) as [e t] eqn:Hget.
  eexists _, _, _, _, _, _. split; [exact Htick|].
  unfold Readings, AngularVelocity, mbind, M_bind, emit, mret, M_ret. simpl.
  rewrite Hget. simpl.
  split; [reflexivity|]. split; [reflexivity|]. by simplify_map_eq.
Qed.

End Accessors.

(* ===================================================================== *)
(** ** Package mpu: the magnetometer during construction *)
(* ===================================================================== *)

Section MagnetometerFacts.
Context {B : Type} (i2c : I2C B) {T : Type} `{!LastError T}.
Implicit Types (w : world B) (m : pkg_mpu.mpu T).

Lemma bind_log {A} (l : logEntry) (f : unit → M B A) w :
  (log l ≫= f) w = f tt (logged w l).
Proof. done. Qed.

(** The magnetometer read is one read transaction at the magnetometer's
    address, and a failed one yields the byte 0. *)
Lemma readMagByte_cases m register w b e w1 :
  pkg_mpu.readMagByte i2c m register w = Done (b, e) w1 →
  (is_Some e → b = x00)
  ∧ accelScale w1 = accelScale w ∧ gyroScale w1 = gyroScale w
  ∧ ∃ es, trace w1 = trace w ++ es
          ∧ read_events (pkg_mpu.magAddress m) register 1 es.
Proof.
  unfold pkg_mpu.readMagByte, pkg_mpu.readMagBlock, closeHandle, on_bus, log,
    mbind, M_bind, mret, M_ret, read_events.
  destruct (OpenHandle i2c (pkg_mpu.magAddress m) (bus w)) as [[e0|] b1]; simpl.
  - intros [= <- <- <-]. simpl. repeat split. eexists. split; [done|by left].
  - destruct (ReadBlockData i2c _ _ _ b1) as [[[|b0 rest]|e0] b2]; simpl;
      destruct (HandleClose i2c _ b2) as [[e1|] b3]; simpl; try done;
      intros [= <- <- <-]; simpl; (split; [by intros [? ?] || done|]);
      repeat split; eexists; rewrite <- !app_assoc; (split; [reflexivity|by right]).
Qed.

(** X13: the magnetometer never decides the construction.  Once the
    identity check and the three register writes have gone through, the
    sensor is returned whenever the scale registers can be read, whatever
    the read of the magnetometer's who-am-I register gave: a wrong byte,
    or a failed read (which counts as the byte 0), only adds the log line
    "mag address wrong".  That read goes to address 0x0C, not to the
    sensor's address. *)
Theorem magnetometer_never_aborts conf newConf w w1 w2 w3 w4 b e w5 g a w6 :
  NativeConfig conf = inl newConf →
  let address :=
    if UseAlternateI2CAddress newConf then alternateAddress else expectedDefaultAddress in
  let s0 := newSensor (T:=T) address in
  let m0 := {| pkg_mpu.sensor := s0; pkg_mpu.magAddress := x0c |} in
  readByte i2c s0 x75
    (logged w (LogDebugf ("Using address " ++ fmt_d address ++ " for MPU9250 sensor")))
  = Done (inl x71) w1 →
  writeByte i2c s0 x6b x00 w1 = Done None w2 →
  writeByte i2c s0 x25 x22 w2 = Done None w3 →
  writeByte i2c s0 x26 x01 (logged w3 (LogErrorf "enabled passthrough successfully"))
  = Done None w4 →
  pkg_mpu.readMagByte i2c m0 x00
    (logged w4 (LogErrorf "enabled passthrough successfully 2"))
  = Done (b, e) w5 →
  let w5' :=
    if Byte.eqb b x48 then w5
    else logged w5 (LogErrorf ("mag address wrong. expected 72, got " ++ fmt_d b)) in
  getReadingScales i2c s0 w5' = Done (g, a, None) w6 →
  (∃ w',
     pkg_mpu.makeMpu9250 i2c conf w
     = Done (Some {| pkg_mpu.sensor := with_workers s0 WorkersRunning;
                     pkg_mpu.magAddress := x0c |}, None) w'
     ∧ gyroScale w' = g ∧ accelScale w' = a
     ∧ logs w' = logs w6 ∧ trace w' = trace w6 ++ [EvWorkersStart])
  ∧ (is_Some e →
     w5' = logged w5 (LogErrorf "mag address wrong. expected 72, got 0"))
  ∧ ∃ es, trace w5 = trace w4 ++ es ∧ read_events x0c x00 1 es.
Proof.
  intros Hconf address s0 m0 Hid Hwake Hp1 Hp2 Hmag w5' Hscales.
  destruct (readMagByte_cases _ _ _ _ _ _ Hmag) as (Hzero & _ & _ & es & Ht & Hes).
  split; [|split; [|by exists es]].
  - eexists. split; [|shelve].
    unfold pkg_mpu.makeMpu9250. rewrite Hconf.
    cbv zeta. cbn [pkg_mpu.sensor pkg_mpu.magAddress].
    change pkg_mpu.magnetometerAddress with x0c.
    change pkg_mpu.magnetometerWhoAmI with x00.
    change defaultAddressRegister with x75.
    fold address. fold s0. fold m0.
    rewrite bind_log, (bind_Done _ _ _ _ _ Hid). cbv beta iota.
    change (negb (Byte.eqb x71 pkg_mpu.expectedConfigurationReadAddress)) with false.
    cbv iota.
    rewrite (bind_Done _ _ _ _ _ Hwake). cbv beta iota.
    rewrite (bind_Done _ _ _ _ _ Hp1). cbv beta iota.
    rewrite bind_log, (bind_Done _ _ _ _ _ Hp2). cbv beta iota.
    rewrite bind_log, (bind_Done _ _ _ _ _ Hmag). cbv beta iota.
    assert (Hcheck : pkg_mpu.magCheck b w5 = Done tt w5').
    { unfold pkg_mpu.magCheck, w5'.
      change pkg_mpu.magnetometerWhoAmIReturn with x48.
      by destruct (Byte.eqb b x48). }
    rewrite (bind_Done _ _ _ _ _ Hcheck), (bind_Done _ _ _ _ _ Hscales). reflexivity.
    Unshelve. by repeat split.
  - intros He. unfold w5'. by rewrite (Hzero He).
Qed.

End MagnetometerFacts.

(* ===================================================================== *)
(** ** The local test program *)
(* ===================================================================== *)

Section TestProgram.
Context {St E : Type} (ms : cmdlocal.MovementSensor St E).

(** How many iterations a run completed, and how many accessor calls it
    made. *)
Lemma rounds_shape n : ∀ st e st' steps,
  cmdlocal.rounds ms n st = (e, st', steps) →
  let completed := length (List.filter cmdlocal.is_round_end steps) in
  let calls := length (List.filter cmdlocal.is_call steps) in
  (completed ≤ n)%nat
  ∧ (e = None ↔ completed = n)
  ∧ (e = None → calls = (2 * n)%nat ∧ length steps = (4 * n)%nat)
  ∧ (is_Some e → (2 * completed < calls ≤ 2 * completed + 2)%nat
                 ∧ ∃ c, last steps = Some c ∧ cmdlocal.is_call c = true).
Proof.
  induction n as [|n IH]; intros st e st' steps H; simpl in H.
  - injection H as <- <- <-. simpl. repeat split; try done; by intros [? ?].
  - destruct (cmdlocal.AngularVelocity ms st) as [[av [e1|]] st1].
    { injection H as <- <- <-. simpl.
      repeat split; try done; try lia; by eexists. }
    destruct (cmdlocal.LinearAcceleration ms st1) as [[la [e2|]] st2].
    { injection H as <- <- <-. simpl.
      repeat split; try done; try lia; by eexists. }
    destruct (cmdlocal.rounds ms n (cmdlocal.elapse ms st2)) as [[e3 st3] steps3] eqn:Hrest.
    injection H as <- <- <-.
    destruct (IH _ _ _ _ Hrest) as (Hle & Hiff & Hnone & Hsome). simpl.
    split; [lia|]. split; [split; intros Hx; [apply Hiff in Hx|apply Hiff]; lia|].
    split.
    + intros He. destruct (Hnone He) as [Hc Hl]. lia.
    + intros He. destruct (Hsome He) as (Hc & c & Hlast & Hcall).
      split; [lia|]. exists c. split; [|done].
      destruct steps3; [done|exact Hlast].
Qed.

End TestProgram.

(** X14: [realMain] stops at the first error and otherwise runs all 30
    iterations.  When the constructor fails it returns that error without
    calling any accessor.  Otherwise it returns nil exactly when 30
    iterations completed, after 60 accessor calls and 120 steps; when it
    returns an error, the last thing it did was the accessor call that
    failed: no log line, no sleep and no further call follow.  On the
    build without Linux the constructor always fails, so [realMain]
    returns its error at once and [main] panics. *)
Theorem realMain_stops_at_first_error {St E} (ms : cmdlocal.MovementSensor St E)
    (NewMpu6050 : string → string → bool → St + E) :
  let '(e, steps) := cmdlocal.realMain ms NewMpu6050 in
  let completed := length (List.filter cmdlocal.is_round_end steps) in
  let calls := length (List.filter cmdlocal.is_call steps) in
  (∀ err, NewMpu6050 "foo" "1" false = inr err → e = Some err ∧ steps = [])
  ∧ (completed ≤ 30)%nat
  ∧ (∀ st, NewMpu6050 "foo" "1" false = inl st →
       (e = None ↔ completed = 30%nat)
       ∧ (e = None → calls = 60%nat ∧ length steps = 120%nat)
       ∧ (is_Some e → (2 * completed < calls ≤ 2 * completed + 2)%nat
                      ∧ ∃ c, last steps = Some c ∧ cmdlocal.is_call c = true))
  ∧ ∀ (ms' : cmdlocal.MovementSensor St string),
      cmdlocal.realMain ms' mpu6050_nonlinux.NewMpu6050
      = (Some "mpu6050 only supported on linux"%string, [])
      ∧ cmdlocal.main_panics ms' mpu6050_nonlinux.NewMpu6050 = true.
Proof.
  unfold cmdlocal.realMain.
  destruct (NewMpu6050 "foo" "1" false) as [st|err].
  - destruct (cmdlocal.rounds ms 30 st) as [[e st'] steps] eqn:Hrounds.
    destruct (rounds_shape ms 30 _ _ _ _ Hrounds) as (Hle & Hiff & Hnone & Hsome).
    cbv zeta in *.
    split; [done|]. split; [exact Hle|]. split; [|by intros ms'].
    intros st0 _. split; [exact Hiff|]. split; [exact Hnone|exact Hsome].
  - cbv zeta. simpl. split; [by intros ? [= <-]|]. split; [lia|]. split; [done|].
    by intros ms'.
Qed.

(** A sensor that faults in the fourth iteration: three iterations
    complete, and the eighth accessor call is the last step. *)
Example realMain_flaky_run :
  cmdlocal.realMain Scenario2.flaky (λ _ _ _, inl 0%nat)
  = (Some "fault"%string,
     concat (replicate 3 [cmdlocal.CallAngularVelocity; cmdlocal.CallLinearAcceleration;
                          cmdlocal.Infof spatialmath.zero r3.zero; cmdlocal.SleepSecond])
     ++ [cmdlocal.CallAngularVelocity; cmdlocal.CallLinearAcceleration]).
Proof. vm_compute. reflexivity. Qed.

(* ===================================================================== *)
(** ** A scale of zero *)
(* ===================================================================== *)

Lemma all_from_spec check n : ∀ z,
  all_from check n z = true → ∀ d, z ≤ d < z + Z.of_nat n → check d = true.
Proof.
  induction n as [|n IH]; intros z H d Hd; [lia|].
  simpl in H. apply andb_prop in H as [Hz Hrest].
  destruct (decide (d = z)) as [->|Hne]; [done|].
  apply (IH (z + 1)); [done|lia].
Qed.

Lemma zero_scaled_all : all_from zero_scaled (Z.to_nat 65536) (-32768) = true.
Proof. vm_cast_no_check (eq_refl true). Qed.

Lemma setScale_zero (hi lo : byte) :
  setScale (int16BE hi lo) F64.zero = S754_zero (int16BE hi lo <? 0).
Proof.
  pose proof (int16BE_range hi lo) as Hrange.
  pose proof (all_from_spec _ _ _ zero_scaled_all (int16BE hi lo)
                ltac:(change (Z.of_nat (Z.to_nat 65536)) with 65536; lia)) as H.
  unfold zero_scaled in H.
  destruct (setScale (int16BE hi lo) F64.zero) as [s| | |]; try done.
  by apply Bool.eqb_prop in H as ->.
Qed.

(** X15: every register byte other than 0, 1, 10 and 11 selects the scale
    0, for the gyroscope and for the accelerometer alike; and while a
    scale is 0, each axis decoded with it is a zero carrying the sign of
    the raw value, whatever the six bytes are. *)
Theorem zero_scale_zeroes_readings :
  (∀ b, b ∈ [x00; x01; x0a; x0b] ∨ (gyroScaleOf b = F64.zero ∧ accelScaleOf b = F64.zero))
  ∧ ∀ {B} (w : world B) b0 b1 b2 b3 b4 b5,
      (gyroScale w = F64.zero →
       toAngularVelocity [b0; b1; b2; b3; b4; b5] w
       = Done (spatialmath.mkAngularVelocity
                 (S754_zero (int16BE b0 b1 <? 0))
                 (S754_zero (int16BE b2 b3 <? 0))
                 (S754_zero (int16BE b4 b5 <? 0))) w)
      ∧ (accelScale w = F64.zero →
         toLinearAcceleration [b0; b1; b2; b3; b4; b5] w
         = Done (r3.mkVector
                   (S754_zero (int16BE b0 b1 <? 0))
                   (S754_zero (int16BE b2 b3 <? 0))
                   (S754_zero (int16BE b4 b5 <? 0))) w).
Proof.
  split.
  - intros b. destruct b; first [left; by repeat constructor|right; by vm_compute].
  - intros B w b0 b1 b2 b3 b4 b5.
    assert (Hmul : ∀ s, F64.mul (S754_zero s) c_9_81 = S754_zero s) by (by intros []).
    split; intros Hzero.
    + unfold toAngularVelocity, mbind, M_bind, mret, M_ret, get_gyroScale. simpl.
      by rewrite Hzero, !setScale_zero.
    + unfold toLinearAcceleration, mbind, M_bind, mret, M_ret, get_accelScale. simpl.
      by rewrite Hzero, !setScale_zero, !Hmul.
Qed.

(* ===================================================================== *)
(** ** The bus name *)
(* ===================================================================== *)

(** Construction consults the bus name only to word the error of a
    failed identity read. *)
Lemma makeMpu9250_bus_name {B} (i2c : I2C B) {T} `{!LastError T} (alt : bool) (w : world B) :
  let address := if alt then alternateAddress else expectedDefaultAddress in
  ∃ k : byte → world B → outcome B (option (mpu9250 T) * option error),
    ∀ bus,
      makeMpu9250 i2c {| NativeConfig := inl {| I2cBus := bus;
                                                 UseAlternateI2CAddress := alt |} |} w
      = match readByte i2c (newSensor address) defaultAddressRegister
                (logged w (LogDebugf ("Using address " ++ fmt_d address
                                      ++ " for MPU9250 sensor"))) with
        | Done (inl b) w1 => k b w1
        | Done (inr e) w1 =>
            Done (None, Some (addressReadError (ErrBus e) address bus)) w1
        | Panicked w1 => Panicked w1
        end.
Proof.
  intros address. eexists (λ b w1, _). intros bus.
  unfold makeMpu9250. simpl. fold address.
  rewrite bind_log. unfold mbind at 1, M_bind at 1.
  destruct (readByte i2c _ _ _) as [[b|e] w1|w1]; reflexivity.
Qed.

(** X16: the bus name is checked by [Validate] alone.  [Validate] rejects
    exactly the configurations whose [i2c_bus] is empty, whatever the
    alternate-address flag, and never declares a dependency; and
    [makeMpu9250] never looks at the name: for two configurations that
    differ only in it, construction does the same on the bus and returns
    the same result, except that the error for a failed identity read
    quotes the name. *)
Theorem bus_name_only_validated {B} (i2c : I2C B) {T} `{!LastError T}
    (bus1 bus2 : string) (alt : bool) (path : string) (w : world B) :
  let conf b := {| I2cBus := b; UseAlternateI2CAddress := alt |} in
  (Validate (conf bus1) path).1 = []
  ∧ ((Validate (conf bus1) path).2 = Some (FieldRequiredError path "i2c_bus")
     ↔ bus1 = ""%string)
  ∧ ((Validate (conf bus1) path).2 = None ↔ bus1 ≠ ""%string)
  ∧ match makeMpu9250 (T:=T) i2c {| NativeConfig := inl (conf bus1) |} w,
          makeMpu9250 (T:=T) i2c {| NativeConfig := inl (conf bus2) |} w with
    | Done (s1, e1) w1, Done (s2, e2) w2 =>
        w1 = w2 ∧ s1 = s2
        ∧ (e1 = e2
           ∨ ∃ cause address, e1 = Some (addressReadError cause address bus1)
                              ∧ e2 = Some (addressReadError cause address bus2))
    | Panicked w1, Panicked w2 => w1 = w2
    | _, _ => False
    end.
Proof.
  intros conf. unfold Validate. simpl.
  split; [by destruct (String.eqb_spec bus1 "")|].
  split; [destruct (String.eqb_spec bus1 ""); naive_solver|].
  split; [destruct (String.eqb_spec bus1 ""); naive_solver|].
  destruct (makeMpu9250_bus_name (T:=T) i2c alt w) as [k Hk].
  unfold conf. rewrite !Hk.
  destruct (readByte i2c _ _ _) as [[b|e] w1|w1]; [|by eauto 8|done].
  destruct (k b w1) as [[s e] w2|w2]; by eauto.
Qed.

(* ===================================================================== *)
(** ** The further scenarios, run *)
(* ===================================================================== *)

Lemma getReadingScales_result_witness :
  getReadingScales SimBus.i2c (newSensor (T:=Window.t) expectedDefaultAddress)
    (SimBus.world0 Scenario.busCodes23)
  = Done (F64.zero, F64.zero, None) Scenario2.worldCodes23
  ∧ length (trace Scenario2.worldCodes23) = 6%nat.
Proof.
  assert (H : getReadingScales SimBus.i2c (newSensor (T:=Window.t) expectedDefaultAddress)
                (SimBus.world0 Scenario.busCodes23)
              = Done (F64.zero, F64.zero, None) Scenario2.worldCodes23)
    by (vm_compute; reflexivity).
  split; [exact H|].
  destruct (getReadingScales_result SimBus.i2c _ _ _ _ _ _ H)
    as (_ & _ & _ & _ & _ & es & Ht & _ & Hlen).
  rewrite Ht. simpl. exact (Hlen eq_refl).
Defined.

Lemma makeMpu9250_sensor_or_error_witness :
  makeMpu9250 SimBus.i2c Scenario.conf (SimBus.world0 Scenario.busB)
  = Done (Some Scenario.sensorB0, None) Scenario.worldB0
  ∧ i2cAddress Scenario.sensorB0 = x68
  ∧ workers Scenario.sensorB0 = WorkersRunning.
Proof.
  assert (H : makeMpu9250 SimBus.i2c Scenario.conf (SimBus.world0 Scenario.busB)
              = Done (Some Scenario.sensorB0, None) Scenario.worldB0)
    by (vm_compute; reflexivity).
  split; [exact H|].
  destruct (makeMpu9250_sensor_or_error SimBus.i2c _ _ _ _ H) as [_ Hs].
  destruct (Hs _ eq_refl) as (newConf & Hconf & Haddr & _ & _ & _ & _ & Hworkers).
  split; [|exact Hworkers].
  rewrite Haddr. by injection Hconf as <-.
Defined.

Lemma makeMpu9250_order_witness :
  makeMpu9250 SimBus.i2c Scenario.conf (SimBus.world0 Scenario.busB)
  = Done (Some Scenario.sensorB0, None) Scenario.worldB0
  ∧ ∃ es, trace Scenario.worldB0 = es ++ [EvWorkersStart] ∧ EvWorkersStart ∉ es.
Proof.
  assert (H : makeMpu9250 SimBus.i2c Scenario.conf (SimBus.world0 Scenario.busB)
              = Done (Some Scenario.sensorB0, None) Scenario.worldB0)
    by (vm_compute; reflexivity).
  split; [exact H|].
  destruct (makeMpu9250_order SimBus.i2c Scenario.conf _ _ _ _ eq_refl H)
    as (es & Ht & _ & _ & _ & Hlast).
  destruct (Hlast ltac:(by eexists)) as (es' & -> & Hnot).
  exists es'. split; [exact Ht|exact Hnot].
Defined.

(** The accelerometer's scale register cannot be read: construction
    fails and both scales, 250/32768 and 2/32768 before, are 0 after. *)
Lemma makeMpu9250_scales_witness :
  makeMpu9250 (T:=Window.t) SimBus.i2c Scenario.conf Scenario2.worldScaleFault0
  = Done (None, Some (ErrBus Scenario.ioError)) Scenario2.worldScaleFault1
  ∧ gyroScale Scenario2.worldScaleFault0 = F64.of_ratio 250 32768
  ∧ gyroScale Scenario2.worldScaleFault1 = F64.zero
  ∧ accelScale Scenario2.worldScaleFault1 = F64.zero.
Proof.
  assert (H : makeMpu9250 (T:=Window.t) SimBus.i2c Scenario.conf Scenario2.worldScaleFault0
              = Done (None, Some (ErrBus Scenario.ioError)) Scenario2.worldScaleFault1)
    by (vm_compute; reflexivity).
  split; [exact H|]. split; [reflexivity|].
  exact (makeMpu9250_scales SimBus.i2c Scenario.conf _ _ _ _ eq_refl H).
Defined.

Lemma pollLoop_bus_traffic_witness :
  pollLoop SimBus.i2c (replicate 10 TimerTick) Scenario2.sensorA0 Scenario2.worldA0
  = Done Scenario.sensorA Scenario.worldA
  ∧ ∃ es, trace Scenario.worldA = trace Scenario2.worldA0 ++ es
          ∧ brief_locks es = true
          ∧ length (filter (λ ev, is_open ev = true) es) = 10%nat.
Proof.
  assert (H : pollLoop SimBus.i2c (replicate 10 TimerTick)
                Scenario2.sensorA0 Scenario2.worldA0
              = Done Scenario.sensorA Scenario.worldA)
    by (vm_compute; reflexivity).
  split; [exact H|].
  destruct (pollLoop_bus_traffic SimBus.i2c _ _ _ _ _ H)
    as (_ & _ & _ & _ & es & Ht & _ & Hlocks & Hcount).
  exists es. split; [exact Ht|]. split; [exact Hlocks|exact Hcount].
Defined.


Lemma pollTick_short_read_panics_witness :
  readBlock Scenario2.shortI2C (newSensor (T:=Window.t) x68) x3b 14 Scenario2.shortWorld0
  = Done (inl [x00; x01; x02]) Scenario2.shortWorld1
  ∧ pollTick Scenario2.shortI2C (newSensor (T:=Window.t) x68) Scenario2.shortWorld0
    = Panicked Scenario2.shortWorld1.
Proof.
  assert (H : readBlock Scenario2.shortI2C (newSensor (T:=Window.t) x68) x3b 14
                Scenario2.shortWorld0
              = Done (inl [x00; x01; x02]) Scenario2.shortWorld1)
    by (vm_compute; reflexivity).
  split; [exact H|].
  apply (pollTick_short_read_panics Scenario2.shortI2C _ _ _ _ H). simpl. lia.
Defined.

Lemma published_sample_is_served_witness :
  readBlock SimBus.i2c Scenario.sensorB0 x3b 14 Scenario.worldB0
  = Done (inl [x00; x00; x00; x00; x40; x00; x00; x00; x00; x00; x00; x00; x00; x00])
         Scenario.worldB1
  ∧ ∃ s' w' m e s'' w'',
      pollTick SimBus.i2c Scenario.sensorB0 Scenario.worldB0 = Done s' w'
      ∧ Readings s' w' = Done (m, e, s'') w''
      ∧ m !! "temperature_celsius" = Some (RFloat (F64.of_int 21)).
Proof.
  assert (H : readBlock SimBus.i2c Scenario.sensorB0 x3b 14 Scenario.worldB0
              = Done (inl [x00; x00; x00; x00; x40; x00; x00; x00;
                           x00; x00; x00; x00; x00; x00]) Scenario.worldB1)
    by (vm_compute; reflexivity).
  split; [exact H|].
  destruct (published_sample_is_served SimBus.i2c _ _ _ _ _ _ _ _ _ _ _ _ _ _ _ _ _ _ H)
    as (s' & w' & m & e & s'' & w'' & Htick & Hread & _ & Htemp & _).
  exists s', w', m, e, s'', w''. split; [exact Htick|]. split; [exact Hread|].
  rewrite Htemp. vm_compute. reflexivity.
Defined.

(** The magnetometer does not answer, and the sensor is built all the
    same. *)
Lemma magnetometer_never_aborts_witness :
  pkg_mpu.readMagByte SimBus.i2c
    {| pkg_mpu.sensor := Scenario2.magSensor; pkg_mpu.magAddress := x0c |} x00
    (logged Scenario2.magW4 (LogErrorf "enabled passthrough successfully 2"))
  = Done (x00, Some Scenario.ioError) Scenario2.magW5
  ∧ ∃ w', pkg_mpu.makeMpu9250 (T:=Window.t) SimBus.i2c Scenario.conf Scenario2.magW0
          = Done (Some {| pkg_mpu.sensor := with_workers Scenario2.magSensor WorkersRunning;
                          pkg_mpu.magAddress := x0c |}, None) w'
          ∧ logs w' = logs Scenario2.magW6.
Proof.
  assert (Hmag : pkg_mpu.readMagByte SimBus.i2c
                   {| pkg_mpu.sensor := Scenario2.magSensor; pkg_mpu.magAddress := x0c |} x00
                   (logged Scenario2.magW4 (LogErrorf "enabled passthrough successfully 2"))
                 = Done (x00, Some Scenario.ioError) Scenario2.magW5)
    by (vm_compute; reflexivity).
  split; [exact Hmag|].
  destruct (magnetometer_never_aborts (T:=Window.t) SimBus.i2c Scenario.conf _
              Scenario2.magW0 Scenario2.magW1 Scenario2.magW2 Scenario2.magW3
              Scenario2.magW4 x00 (Some Scenario.ioError) Scenario2.magW5
              (gyroScaleOf x00) (accelScaleOf x00) Scenario2.magW6
              eq_refl ltac:(vm_compute; reflexivity) ltac:(vm_compute; reflexivity)
              ltac:(vm_compute; reflexivity) ltac:(vm_compute; reflexivity) Hmag
              ltac:(vm_compute; reflexivity))
    as [(w' & Hmake & _ & _ & Hlogs & _) _].
  exists w'. split; [exact Hmake|exact Hlogs].
Defined.
